(** * AppNavigation: the navigation-state coordinator of the app front-end

    A shallow embedding of [frontend/app/src/util/AppNavigation.ts]:
    the two protocol strategies [AppNavigationV1] (flat page list) and
    [AppNavigationV2] (sectioned navigation), and the dispatcher
    [AppNavigation] that owns at most one of them at a time.

    Conventions of the embedding.
    - A TypeScript value of type [T | null | undefined] is an [option T];
      [None] stands for both [null] and [undefined] (the code only ever
      applies [??], [?.], [||], truthiness and [===] against a string to
      such values, none of which tells the two apart).
    - Strings are byte strings; the middle dot of the document title is its
      UTF-8 encoding.
    - Objects with mutable fields live in a store and are named by a
      reference; closures are functions that read the store when they are
      run, not when they are built.
    - A handler is a computation over the [World] that either returns or
      throws; what it wrote before throwing stays written. *)

From Stdlib Require Import String List Bool Arith Lia.
Import ListNotations.
Open Scope string_scope.

(** ** JavaScript operators on possibly absent values *)

(** [a ?? d] *)
Definition nullish {A : Type} (a : option A) (d : A) : A :=
  match a with
  | Some v => v
  | None => d
  end.

Notation "a ?? d" := (nullish a d) (at level 45, left associativity).

(** [s || ""] on a possibly absent string: an absent and an empty string are
    both falsy, and the right operand is the empty string. *)
Definition or_empty (s : option string) : string :=
  match s with
  | Some v => if String.eqb v "" then "" else v
  | None => ""
  end.

(** Truthiness of a possibly absent boolean, as tested by [b ? x : y]. *)
Definition truthy (b : option bool) : bool :=
  match b with
  | Some true => true
  | _ => false
  end.

(** [a === s] where [s] is a string: an absent value is never equal to it. *)
Definition strict_eq (a : option string) (s : string) : bool :=
  match a with
  | Some v => String.eqb v s
  | None => false
  end.

(** ** Protocol messages

    The message types are imported from [@streamlit/lib]; the records below
    carry the fields this file reads, optional where the imported interface
    marks them optional. *)

Module IAppPage.
Record t : Type := mk {
  pageScriptHash : option string;
  pageName : option string;
  isDefault : option bool
}.
End IAppPage.

Module IConfig.
Record t : Type := mk {
  hideSidebarNav : option bool
}.
End IConfig.

Module NewSession.
Record t : Type := mk {
  appPages : list IAppPage.t;
  pageScriptHash : string;
  config : option IConfig.t
}.
End NewSession.

Module PagesChanged.
Record t : Type := mk {
  appPages : list IAppPage.t
}.
End PagesChanged.

Module PageNotFound.
Record t : Type := mk {
  pageName : string
}.
End PageNotFound.

Module INavigationSection.
Record t : Type := mk {
  header : option string;
  appPages : option (list IAppPage.t)
}.
End INavigationSection.

Module Navigation.
Record t : Type := mk {
  sections : list INavigationSection.t;
  position : string;
  pageScriptHash : string
}.
End Navigation.

(** ** The JavaScript [Map], keyed by strings

    A [Map] iterates in insertion order and [set] on a key that is already
    there replaces the value where the key stands. *)

Module JsMap.
Section WithValue.
Variable V : Type.

Definition t : Type := list (string * V).

Definition empty : t := [].

Fixpoint set (m : t) (k : string) (v : V) : t :=
  match m with
  | [] => [(k, v)]
  | (k', v') :: m' =>
      if String.eqb k' k then (k', v) :: m' else (k', v') :: set m' k v
  end.

Fixpoint get (m : t) (k : string) : option V :=
  match m with
  | [] => None
  | (k', v') :: m' => if String.eqb k' k then Some v' else get m' k
  end.

Definition keys (m : t) : list string := map fst m.
End WithValue.

Arguments empty {V}.
Arguments set {V} m k v.
Arguments get {V} m k.
Arguments keys {V} m.
End JsMap.

(** ** State patches *)

(** A key of an object literal: written with a value, or left out. *)
Inductive field (A : Type) : Type :=
| absent : field A
| present : A -> field A.

Arguments absent {A}.
Arguments present {A} _.

Module AppNavigationState.
(** [AtLeastOne<AppNavigationState>]: a patch of the state. *)
Record partial : Type := mk {
  hideSidebarNav : field bool;
  appPages : field (list IAppPage.t);
  currentPageScriptHash : field (option string);
  navPageSections : field (JsMap.t (option (list IAppPage.t)))
}.
End AppNavigationState.

(** ** The world the handlers act on *)

(** Messages for the host frame, [hostCommunicationMgr.sendMessageToHost]. *)
Inductive HostMessage : Type :=
| SET_APP_PAGES (appPages : list IAppPage.t)
| SET_CURRENT_PAGE_NAME (currentPageName : option string)
                        (currentPageScriptHash : option string).

(** Calls that leave the module, in the order they are made. *)
Inductive Call : Type :=
| onUpdatePageUrl (mainPageName : string) (newPageName : option string)
                  (isViewingMainPage : bool)
| onPageNotFound (pageName : string)
| metricsEnqueue (evName : string) (numPages : nat) (isMainPage : option bool)
| sendMessageToHost (msg : HostMessage).

Definition Ref : Type := nat.

(** The fields of an [AppNavigationV1] object ([parent] is the one
    dispatcher and is left out). *)
Module V1Fields.
Record t : Type := mk {
  appPages : list IAppPage.t;
  currentPageScriptHash : option string;
  hideSidebarNav : option bool
}.
End V1Fields.

(** What [AppNavigation.versionManager] points to when it is not [null].
    An [AppNavigationV2] object has no field but [parent]. *)
Inductive VersionManager : Type :=
| V1 (this : Ref)
| V2.

Record World : Type := mkWorld {
  heap : Ref -> V1Fields.t;                 (* the AppNavigationV1 objects *)
  next : Ref;                               (* first reference not yet allocated *)
  versionManager : option VersionManager;   (* AppNavigation.versionManager *)
  title : string;                           (* document.title *)
  calls : list Call                         (* outward calls so far, oldest first *)
}.

(** ** Computations that may throw *)

Inductive Exn : Type :=
| TypeError.

Inductive Completion (A : Type) : Type :=
| Returned (a : A)
| Thrown (e : Exn).

Arguments Returned {A} a.
Arguments Thrown {A} e.

Definition M (A : Type) : Type := World -> World * Completion A.

Definition ret {A : Type} (a : A) : M A := fun w => (w, Returned a).

Definition throw {A : Type} (e : Exn) : M A := fun w => (w, Thrown e).

Definition bind {A B : Type} (c : M A) (k : A -> M B) : M B :=
  fun w =>
    match c w with
    | (w', Returned a) => k a w'
    | (w', Thrown e) => (w', Thrown e)
    end.

Notation "x <- c ;; k" := (bind c (fun x => k))
  (at level 61, c at next level, right associativity).
Notation "c ;; k" := (bind c (fun _ => k))
  (at level 61, right associativity).

Definition call (c : Call) : M unit :=
  fun w => (mkWorld (heap w) (next w) (versionManager w) (title w)
                    (calls w ++ [c]), Returned tt).

Definition setTitle (s : string) : M unit :=
  fun w => (mkWorld (heap w) (next w) (versionManager w) s (calls w),
            Returned tt).

Definition load (r : Ref) : M V1Fields.t :=
  fun w => (w, Returned (heap w r)).

Definition store (r : Ref) (o : V1Fields.t) : M unit :=
  fun w => (mkWorld (fun r' => if Nat.eqb r' r then o else heap w r')
                    (next w) (versionManager w) (title w) (calls w),
            Returned tt).

Definition alloc (o : V1Fields.t) : M Ref :=
  fun w => (mkWorld (fun r' => if Nat.eqb r' (next w) then o else heap w r')
                    (S (next w)) (versionManager w) (title w) (calls w),
            Returned (next w)).

Definition getVersionManager : M (option VersionManager) :=
  fun w => (w, Returned (versionManager w)).

Definition setVersionManager (v : VersionManager) : M unit :=
  fun w => (mkWorld (heap w) (next w) (Some v) (title w) (calls w),
            Returned tt).

(** A zero-argument procedure handed back to the caller. *)
Definition Procedure : Type := M unit.

Definition MaybeStateUpdate : Type :=
  option (AppNavigationState.partial * Procedure).

Definition middot_Streamlit : string := " · Streamlit".

(** ** The legacy strategy *)

Module AppNavigationV1.

(** [constructor(parent)] *)
Definition new : M Ref :=
  alloc (V1Fields.mk [] None None).

Definition handleNewSession (this : Ref) (newSession : NewSession.t)
  : M MaybeStateUpdate :=
  (* The three assignments to [this]. The rest of the body reads the
     fields back with nothing in between that writes them, so it sees
     the values assigned here. *)
  let appPages := NewSession.appPages newSession in
  let currentPageScriptHash := NewSession.pageScriptHash newSession in
  let hideSidebarNav :=
    match NewSession.config newSession with
    | Some config => IConfig.hideSidebarNav config
    | None => None
    end ?? false in
  store this (V1Fields.mk appPages (Some currentPageScriptHash)
                          (Some hideSidebarNav)) ;;
  match appPages with
  | [] =>
      (* [this.appPages[0]] is undefined; reading [pageName] of it throws *)
      throw TypeError
  | mainPage :: _ =>
      let mainPageName := IAppPage.pageName mainPage ?? "" in
      let newPageName :=
        match find (fun page =>
                      strict_eq (IAppPage.pageScriptHash page)
                                currentPageScriptHash) appPages with
        | Some page => IAppPage.pageName page
        | None => None
        end ?? "" in
      let isViewingMainPage :=
        strict_eq (IAppPage.pageScriptHash mainPage) currentPageScriptHash in
      call (onUpdatePageUrl mainPageName (Some newPageName)
                            isViewingMainPage) ;;
      setTitle (newPageName ++ middot_Streamlit) ;;
      call (metricsEnqueue "updateReport" (length appPages)
                           (Some isViewingMainPage)) ;;
      ret (Some
        (AppNavigationState.mk
           (present hideSidebarNav)
           (present appPages)
           (present (Some currentPageScriptHash))
           absent,
         (* the closure reads [this.appPages] and
            [this.currentPageScriptHash] when it is run *)
         (self <- load this ;;
          call (sendMessageToHost
                  (SET_APP_PAGES (V1Fields.appPages self))) ;;
          self' <- load this ;;
          call (sendMessageToHost
                  (SET_CURRENT_PAGE_NAME
                     (Some (if isViewingMainPage then "" else newPageName))
                     (V1Fields.currentPageScriptHash self'))))))
  end.

Definition handlePagesChanged (this : Ref) (pagesChangedMsg : PagesChanged.t)
  : M MaybeStateUpdate :=
  let appPages := PagesChanged.appPages pagesChangedMsg in
  ret (Some
    (AppNavigationState.mk absent (present appPages) absent absent,
     call (sendMessageToHost (SET_APP_PAGES appPages)))).

Definition handlePageNotFound (this : Ref) (pageNotFound : PageNotFound.t)
  : M MaybeStateUpdate :=
  let pageName := PageNotFound.pageName pageNotFound in
  call (onPageNotFound pageName) ;;
  self <- load this ;;
  let currentPageScriptHash :=
    match V1Fields.appPages self with
    | page :: _ => IAppPage.pageScriptHash page
    | [] => None
    end ?? "" in
  ret (Some
    (AppNavigationState.mk absent absent
                           (present (Some currentPageScriptHash)) absent,
     call (sendMessageToHost
             (SET_CURRENT_PAGE_NAME (Some "")
                                    (Some currentPageScriptHash))))).

End AppNavigationV1.

(** ** The sectioned strategy *)

Module AppNavigationV2.

(** The loop that fills [navPageSections]. *)
Definition buildNavPageSections (sections : list INavigationSection.t)
  : JsMap.t (option (list IAppPage.t)) :=
  fold_left
    (fun navPageSections section =>
       JsMap.set navPageSections
                 (or_empty (INavigationSection.header section))
                 (INavigationSection.appPages section))
    sections JsMap.empty.

(** [sections.flatMap(section => section.appPages || [])]; an array is
    truthy even when it is empty. *)
Definition flattenAppPages (sections : list INavigationSection.t)
  : list IAppPage.t :=
  flat_map (fun section => INavigationSection.appPages section ?? [])
           sections.

Definition handleNewSession (_newSession : NewSession.t)
  : M MaybeStateUpdate :=
  setTitle middot_Streamlit ;;
  ret None.

Definition handleNavigation (navigationMsg : Navigation.t)
  : M MaybeStateUpdate :=
  let sections := Navigation.sections navigationMsg in
  let position := Navigation.position navigationMsg in
  let navPageSections := buildNavPageSections sections in
  let appPages := flattenAppPages sections in
  let hideSidebarNav := String.eqb position "hidden" in
  match find (fun p =>
                strict_eq (IAppPage.pageScriptHash p)
                          (Navigation.pageScriptHash navigationMsg))
             appPages with
  | None =>
      (* [currentPage] is undefined; reading [pageScriptHash] of it throws *)
      throw TypeError
  | Some currentPage =>
      let currentPageScriptHash := IAppPage.pageScriptHash currentPage in
      let currentPageName :=
        if truthy (IAppPage.isDefault currentPage)
        then Some ""
        else IAppPage.pageName currentPage in
      call (metricsEnqueue "updateReport" (length appPages)
                           (IAppPage.isDefault currentPage)) ;;
      call (onUpdatePageUrl "" currentPageName
                            (IAppPage.isDefault currentPage ?? false)) ;;
      ret (Some
        (AppNavigationState.mk
           (present hideSidebarNav)
           (present [])
           (present currentPageScriptHash)
           (present navPageSections),
         (call (sendMessageToHost (SET_APP_PAGES appPages)) ;;
          call (sendMessageToHost
                  (SET_CURRENT_PAGE_NAME currentPageName
                                         currentPageScriptHash)))))
  end.

Definition handlePagesChanged (_pagesChangedMsg : PagesChanged.t)
  : M MaybeStateUpdate :=
  ret None.

Definition handlePageNotFound (_pageNotFound : PageNotFound.t)
  : M MaybeStateUpdate :=
  ret None.

End AppNavigationV2.

(** ** The dispatcher *)

Module AppNavigation.

(** The state of a dispatcher that has just been constructed: no strategy,
    no object allocated; title and earlier calls are the environment's. *)
Definition new (title0 : string) : World :=
  mkWorld (fun _ => V1Fields.mk [] None None) 0 None title0 [].

Definition handleNewSession (newSession : NewSession.t)
  : M MaybeStateUpdate :=
  vm <- getVersionManager ;;
  (if Nat.ltb 1 (length (NewSession.appPages newSession))
      && match vm with None => true | Some _ => false end
   then
     this <- AppNavigationV1.new ;;
     setVersionManager (V1 this)
   else ret tt) ;;
  vm <- getVersionManager ;;
  match vm with
  | Some (V1 this) => AppNavigationV1.handleNewSession this newSession
  | Some V2 => AppNavigationV2.handleNewSession newSession
  | None => ret None
  end.

Definition handlePagesChanged (pagesChangedMsg : PagesChanged.t)
  : M MaybeStateUpdate :=
  vm <- getVersionManager ;;
  match vm with
  | Some (V1 this) => AppNavigationV1.handlePagesChanged this pagesChangedMsg
  | Some V2 => AppNavigationV2.handlePagesChanged pagesChangedMsg
  | None => ret None
  end.

Definition handleNavigation (navigation : Navigation.t)
  : M MaybeStateUpdate :=
  vm <- getVersionManager ;;
  (match vm with
   | Some V2 => ret tt
   | _ => setVersionManager V2
   end) ;;
  AppNavigationV2.handleNavigation navigation.

Definition handlePageNotFound (pageNotFoundMsg : PageNotFound.t)
  : M MaybeStateUpdate :=
  vm <- getVersionManager ;;
  match vm with
  | Some (V1 this) => AppNavigationV1.handlePageNotFound this pageNotFoundMsg
  | Some V2 => AppNavigationV2.handlePageNotFound pageNotFoundMsg
  | None => ret None
  end.

End AppNavigation.

(** ** Events and their processing by the owner of the dispatcher *)

Inductive Event : Type :=
| EvNewSession (msg : NewSession.t)
| EvPagesChanged (msg : PagesChanged.t)
| EvNavigation (msg : Navigation.t)
| EvPageNotFound (msg : PageNotFound.t).

Definition handle (e : Event) : M MaybeStateUpdate :=
  match e with
  | EvNewSession msg => AppNavigation.handleNewSession msg
  | EvPagesChanged msg => AppNavigation.handlePagesChanged msg
  | EvNavigation msg => AppNavigation.handleNavigation msg
  | EvPageNotFound msg => AppNavigation.handlePageNotFound msg
  end.

(** One event: the handler runs to completion; when it hands back a
    procedure the owner may run it ([runProcedure]) or drop it. A throw
    leaves the world as the handler left it. *)
Definition process (e : Event) (runProcedure : bool) (w : World) : World :=
  match handle e w with
  | (w', Returned (Some (_, procedure))) =>
      if runProcedure then fst (procedure w') else w'
  | (w', _) => w'
  end.

Fixpoint processAll (es : list (Event * bool)) (w : World) : World :=
  match es with
  | [] => w
  | (e, runProcedure) :: es' => processAll es' (process e runProcedure w)
  end.

(** Which strategy is active. *)
Inductive Strategy : Type :=
| NoStrategy
| Legacy
| Sectioned.

Definition active (w : World) : Strategy :=
  match versionManager w with
  | None => NoStrategy
  | Some (V1 _) => Legacy
  | Some V2 => Sectioned
  end.

(** The active strategy before the first event and after each event. *)
Fixpoint strategies (es : list (Event * bool)) (w : World) : list Strategy :=
  active w ::
  match es with
  | [] => []
  | (e, runProcedure) :: es' => strategies es' (process e runProcedure w)
  end.

(** A change of strategy that the dispatcher is meant to make. *)
Inductive promotion : Strategy -> Strategy -> Prop :=
| none_to_legacy : promotion NoStrategy Legacy
| none_to_sectioned : promotion NoStrategy Sectioned
| legacy_to_sectioned : promotion Legacy Sectioned.

(** Every two consecutive entries are equal or a promotion. *)
Fixpoint promotions_only (l : list Strategy) : Prop :=
  match l with
  | a :: (b :: _) as l' => (a = b \/ promotion a b) /\ promotions_only l'
  | _ => True
  end.

(** The pages of a message that match a hash. *)
Definition has_page (hash : string) (pages : list IAppPage.t) : Prop :=
  exists p, In p pages /\ IAppPage.pageScriptHash p = Some hash.

(** The value written last under key [k] when the sections are stored one
    after the other. *)
Fixpoint last_write (k : string) (sections : list INavigationSection.t)
  : option (option (list IAppPage.t)) :=
  match sections with
  | [] => None
  | s :: rest =>
      match last_write k rest with
      | Some v => Some v
      | None =>
          if String.eqb (INavigationSection.header s ?? "") k
          then Some (INavigationSection.appPages s)
          else None
      end
  end.

(** The keys of the sections in message order, each at its first
    occurrence. *)
Fixpoint first_keys (seen : list string) (sections : list INavigationSection.t)
  : list string :=
  match sections with
  | [] => []
  | s :: rest =>
      let k := INavigationSection.header s ?? "" in
      if existsb (String.eqb k) seen
      then first_keys seen rest
      else k :: first_keys (seen ++ [k])%list rest
  end.

(** One turn of the loop that fills [navPageSections]. *)
Definition setSection (m : JsMap.t (option (list IAppPage.t)))
           (section : INavigationSection.t) :=
  JsMap.set m (or_empty (INavigationSection.header section))
            (INavigationSection.appPages section).

(** The world after some more outward calls. *)
Definition after_calls (w : World) (cs : list Call) : World :=
  mkWorld (heap w) (next w) (versionManager w) (title w) (calls w ++ cs).

(** The world in which the dispatcher has just been given a new legacy
    strategy. *)
Definition with_new_V1 (w : World) : World :=
  mkWorld (fun r => if Nat.eqb r (next w)
                    then V1Fields.mk [] None None
                    else heap w r)
          (S (next w)) (Some (V1 (next w))) (title w) (calls w).

(** The world in which the dispatcher's strategy is the sectioned one. *)
Definition with_V2 (w : World) : World :=
  mkWorld (heap w) (next w) (Some V2) (title w) (calls w).

(** The name sent for the current page: empty for the default page. *)
Definition currentPageNameOf (currentPage : IAppPage.t) : option string :=
  if truthy (IAppPage.isDefault currentPage)
  then Some ""
  else IAppPage.pageName currentPage.

(** The hash of the first page, or the empty string. *)
Definition fallbackHash (pages : list IAppPage.t) : string :=
  match pages with
  | page :: _ => IAppPage.pageScriptHash page
  | [] => None
  end ?? "".

(** No [hideSidebarNav] in the configuration of a session. *)
Definition no_hideSidebarNav (config : option IConfig.t) : Prop :=
  config = None \/ config = Some (IConfig.mk None).

(** The pages of a message as its sections list them, one section after
    the other; a section without a page list has none. *)
Definition sectionPages (sections : list INavigationSection.t)
  : list IAppPage.t :=
  concat (map (fun section => INavigationSection.appPages section ?? [])
              sections).

(** Some section of the message lists a page that has the message's hash. *)
Definition message_has_page (msg : Navigation.t) : Prop :=
  exists (section : INavigationSection.t) (pages : list IAppPage.t)
         (page : IAppPage.t),
    In section (Navigation.sections msg) /\
    INavigationSection.appPages section = Some pages /\
    In page pages /\
    IAppPage.pageScriptHash page = Some (Navigation.pageScriptHash msg).

(** ** Sample data *)

Module Sample.
Definition home : IAppPage.t := IAppPage.mk (Some "h1") (Some "Home") None.
Definition about : IAppPage.t := IAppPage.mk (Some "h2") (Some "About") None.

Definition session (config : option IConfig.t) : NewSession.t :=
  NewSession.mk [home; about] "h2" config.

Definition emptySession : NewSession.t := NewSession.mk [] "h1" None.
Definition onePageSession : NewSession.t := NewSession.mk [home] "h1" None.

Definition p1 : IAppPage.t := IAppPage.mk (Some "a1") (Some "One") (Some true).
Definition p2 : IAppPage.t := IAppPage.mk (Some "a2") (Some "Two") None.
Definition p3 : IAppPage.t := IAppPage.mk (Some "a3") (Some "Three") None.

Definition sections (p1 p2 p3 : IAppPage.t) : list INavigationSection.t :=
  [INavigationSection.mk (Some "A") (Some [p1; p2]);
   INavigationSection.mk (Some "") (Some [p3])].

Definition navigation (hash : string) : Navigation.t :=
  Navigation.mk (sections p1 p2 p3) "sidebar" hash.

Definition pagesChanged : PagesChanged.t := PagesChanged.mk [p3].
Definition pageNotFound : PageNotFound.t := PageNotFound.mk "missing".

Definition fresh : World := AppNavigation.new "".
Definition legacy : World :=
  fst (AppNavigation.handleNewSession (session None) fresh).
Definition sectioned : World :=
  fst (AppNavigation.handleNavigation (navigation "a2") legacy).
End Sample.

(** ** More vocabulary for the dispatcher *)

(** The fields [AppNavigationV1.handleNewSession] assigns from a message. *)
Definition fieldsOf (newSession : NewSession.t) : V1Fields.t :=
  V1Fields.mk (NewSession.appPages newSession)
              (Some (NewSession.pageScriptHash newSession))
              (Some (match NewSession.config newSession with
                     | Some config => IConfig.hideSidebarNav config
                     | None => None
                     end ?? false)).

(** The world in which the strategy object [this] has the fields [o]. *)
Definition with_fields (w : World) (this : Ref) (o : V1Fields.t) : World :=
  mkWorld (fun r' => if Nat.eqb r' this then o else heap w r')
          (next w) (versionManager w) (title w) (calls w).

(** The world with another document title. *)
Definition with_title (w : World) (s : string) : World :=
  mkWorld (heap w) (next w) (versionManager w) s (calls w).

(** The name of the page of a session that has the session's hash, or the
    empty string. *)
Definition newPageNameOf (newSession : NewSession.t) : string :=
  match find (fun page =>
                strict_eq (IAppPage.pageScriptHash page)
                          (NewSession.pageScriptHash newSession))
             (NewSession.appPages newSession) with
  | Some page => IAppPage.pageName page
  | None => None
  end ?? "".

Definition is_navigation (e : Event) : bool :=
  match e with
  | EvNavigation _ => true
  | _ => false
  end.

Definition is_newSession (e : Event) : bool :=
  match e with
  | EvNewSession _ => true
  | _ => false
  end.

(** The events that make a dispatcher without a strategy take one. *)
Definition commits (e : Event) : bool :=
  match e with
  | EvNewSession msg => Nat.ltb 1 (length (NewSession.appPages msg))
  | EvNavigation _ => true
  | _ => false
  end.

(** How each handler of a sequence of events completes. *)
Fixpoint outcomes (es : list (Event * bool)) (w : World)
  : list (Completion MaybeStateUpdate) :=
  match es with
  | [] => []
  | (e, runProcedure) :: es' =>
      snd (handle e w) :: outcomes es' (process e runProcedure w)
  end.

(** The key under which a section is stored. *)
Definition sectionKey (section : INavigationSection.t) : string :=
  INavigationSection.header section ?? "".

(** * PlotlyChart: the selection of a chart as widget state

    The part of [frontend/lib/src/components/elements/PlotlyChart/
    PlotlyChart.tsx] that turns a selection event of the plotting library
    into the state sent to the backend, and the choice of the interaction
    modes of a chart. *)

From Stdlib Require Import Ascii.

(** ** Two string methods, for a pattern of one character *)

Module JsString.

(** [s.replace(c, "")]: the first occurrence of [c] is taken out. *)
Fixpoint replace_first (c : ascii) (s : string) : string :=
  match s with
  | EmptyString => EmptyString
  | String a s' =>
      if Ascii.eqb a c then s' else String a (replace_first c s')
  end.

(** The pieces of [s] between the occurrences of [c]: the first piece and
    the others. *)
Fixpoint split_pieces (c : ascii) (s : string) : string * list string :=
  match s with
  | EmptyString => (EmptyString, [])
  | String a s' =>
      let (piece, pieces) := split_pieces c s' in
      if Ascii.eqb a c
      then (EmptyString, piece :: pieces)
      else (String a piece, pieces)
  end.

(** [s.split(c)]; there is always a first piece. *)
Definition split (c : ascii) (s : string) : list string :=
  let (piece, pieces) := split_pieces c s in piece :: pieces.

End JsString.

Module PlotlyChart.

(** [SelectionRange]; the two arrays need not hold the same kind of value. *)
Record SelectionRange (X Y : Type) : Type := mkSelectionRange {
  x : list X;
  y : list Y
}.

Arguments mkSelectionRange {X Y} x y.
Arguments x {X Y} _.
Arguments y {X Y} _.

(** One turn of the [forEach] of [parseLassoPath]: the first two pieces of
    the point go through [Number]; a point without a comma has no second
    piece and pushes [undefined] to [y]. *)
Definition pushPoint {num : Type} (Number : string -> num)
           (acc : SelectionRange num (option num)) (point : string)
  : SelectionRange num (option num) :=
  let (first, others) := JsString.split_pieces "," point in
  let xVal := Number first in
  let yVal := option_map Number (hd_error others) in
  mkSelectionRange (x acc ++ [xVal]) (y acc ++ [yVal]).

(** [Number] is JavaScript's conversion of a string to a number. *)
Definition parseLassoPath {num : Type} (Number : string -> num)
           (pathData : string) : SelectionRange num (option num) :=
  if String.eqb pathData ""
  then mkSelectionRange [] []
  else
    let points :=
      JsString.split "L"
        (JsString.replace_first "Z" (JsString.replace_first "M" pathData)) in
    fold_left (pushPoint Number) points (mkSelectionRange [] []).

(** An entry of [event.selections], as far as the module looks at it.
    [type] is compared with two strings only; the four corners are looked
    up with [in]. *)
Record Selection (value : Type) : Type := mkSelection {
  type : option string;
  xref : value;
  yref : value;
  path : option string;
  x0 : field value;
  x1 : field value;
  y0 : field value;
  y1 : field value
}.

Arguments mkSelection {value} _ _ _ _ _ _ _ _.
Arguments type {value} _.
Arguments xref {value} _.
Arguments yref {value} _.
Arguments path {value} _.
Arguments x0 {value} _.
Arguments x1 {value} _.
Arguments y0 {value} _.
Arguments y1 {value} _.

Definition parseBoxSelection {value : Type} (selection : Selection value)
  : SelectionRange value value :=
  match x0 selection, x1 selection, y0 selection, y1 selection with
  | present vx0, present vx1, present vy0, present vy1 =>
      mkSelectionRange [vx0; vx1] [vy0; vy1]
  | _, _, _, _ => mkSelectionRange [] []
  end.

(** [PlotlySelection] *)
Record PlotlySelection (value X Y : Type) : Type := mkPlotlySelection {
  sel_xref : value;
  sel_yref : value;
  sel_x : list X;
  sel_y : list Y
}.

Arguments mkPlotlySelection {value X Y} _ _ _ _.
Arguments sel_xref {value X Y} _.
Arguments sel_yref {value X Y} _.
Arguments sel_x {value X Y} _.
Arguments sel_y {value X Y} _.

(** [PlotlyChartProto.SelectionMode] *)
Inductive SelectionMode : Type :=
| POINTS
| BOX
| LASSO.

Definition SelectionMode_eqb (a b : SelectionMode) : bool :=
  match a, b with
  | POINTS, POINTS | BOX, BOX | LASSO, LASSO => true
  | _, _ => false
  end.

(** [selectionMode.includes(mode)] *)
Definition includes (selectionMode : list SelectionMode) (mode : SelectionMode)
  : bool :=
  existsb (SelectionMode_eqb mode) selectionMode.

(** The object pushed for a point: the point's own properties with [data]
    and [fullData] set to [undefined], and [legendgroup]. *)
Record SelectedPoint (Point : Type) : Type := mkSelectedPoint {
  spread : Point;
  legendgroup : option string
}.

Arguments mkSelectedPoint {Point} _ _.
Arguments spread {Point} _.
Arguments legendgroup {Point} _.

(** The [select] object of [PlotlyWidgetState]. *)
Record Select (num value SnakePoint : Type) : Type := mkSelect {
  points : list SnakePoint;
  point_indices : list num;
  box : list (PlotlySelection value value value);
  lasso : list (PlotlySelection value num (option num))
}.

Arguments mkSelect {num value SnakePoint} _ _ _ _.
Arguments points {num value SnakePoint} _.
Arguments point_indices {num value SnakePoint} _.
Arguments box {num value SnakePoint} _.
Arguments lasso {num value SnakePoint} _.

Record PlotlyWidgetState (num value SnakePoint : Type) : Type :=
  mkPlotlyWidgetState {
  select : Select num value SnakePoint
}.

Arguments mkPlotlyWidgetState {num value SnakePoint} _.
Arguments select {num value SnakePoint} _.

(** What the module takes from the language and from the libraries it
    imports: numbers with [Number] and the equality of [Set]; other values,
    opaque; the points of an event with the three properties that are read,
    of which [data] may be missing (the point is typed [any]; [data] is
    also nothing for an entry that is itself [null] or [undefined]);
    [keysToSnakeCase]; [JSON.stringify] on the widget state. *)
Class Host : Type := {
  num : Type;
  Number : string -> num;
  sameValueZero : num -> num -> bool;
  value : Type;
  Point : Type;
  pointIndex : Point -> option num;
  pointIndices : Point -> option (list num);
  PlotData : Type;
  data : Point -> option PlotData;
  data_legendgroup : PlotData -> option string;
  SnakePoint : Type;
  keysToSnakeCase : SelectedPoint Point -> SnakePoint;
  stringify : PlotlyWidgetState num value SnakePoint -> string
}.

(** [widgetMgr.setStringValue(element, value, { fromUi }, fragmentId)] *)
Record SetStringValue : Type := mkSetStringValue {
  newValue : string;
  fromUi : bool;
  fragmentId : option string
}.

Section WithHost.
Context {host : Host}.

(** [Plotly.PlotSelectionEvent], with the [selections] the typing leaves
    out. *)
Record PlotSelectionEvent : Type := mkPlotSelectionEvent {
  selections : option (list (Selection value));
  event_points : list Point
}.

(** [set.add(v)] on the elements of a [Set] in insertion order. *)
Definition setAdd (set : list num) (v : num) : list num :=
  if existsb (sameValueZero v) set then set else (set ++ [v])%list.

(** [legendgroup || undefined] *)
Definition legendgroupOrUndefined (g : option string) : option string :=
  match g with
  | Some s => if String.eqb s "" then None else Some s
  | None => None
  end.

(** One turn of [points.forEach]; reading [point.data.legendgroup] of a
    point without [data] throws, before anything is pushed. *)
Definition collectPoint (acc : list (SelectedPoint Point) * list num)
           (point : Point)
  : Completion (list (SelectedPoint Point) * list num) :=
  let (selectedPoints, selectedPointIndices) := acc in
  match data point with
  | None => Thrown TypeError
  | Some pointData =>
      let selectedPoints :=
        (selectedPoints ++
         [mkSelectedPoint
            point
            (legendgroupOrUndefined (data_legendgroup pointData))])%list in
      let selectedPointIndices :=
        match pointIndex point with
        | Some i => setAdd selectedPointIndices i
        | None => selectedPointIndices
        end in
      let selectedPointIndices :=
        match pointIndices point with
        | Some (item :: items) =>
            fold_left setAdd (item :: items) selectedPointIndices
        | _ => selectedPointIndices
        end in
      Returned (selectedPoints, selectedPointIndices)
  end.

Fixpoint collectPoints (acc : list (SelectedPoint Point) * list num)
         (l : list Point)
  : Completion (list (SelectedPoint Point) * list num) :=
  match l with
  | [] => Returned acc
  | point :: rest =>
      match collectPoint acc point with
      | Returned acc' => collectPoints acc' rest
      | Thrown e => Thrown e
      end
  end.

(** One turn of [selections.forEach]; a lasso whose [path] is not a string
    makes [parseLassoPath] throw. *)
Definition collectSelection
           (acc : list (PlotlySelection value value value) *
                  list (PlotlySelection value num (option num)))
           (selection : Selection value)
  : Completion (list (PlotlySelection value value value) *
                list (PlotlySelection value num (option num))) :=
  let (selectedBoxes, selectedLassos) := acc in
  let selectedBoxes :=
    if strict_eq (type selection) "rect"
    then
      let xAndy := parseBoxSelection selection in
      (selectedBoxes ++
       [mkPlotlySelection (xref selection) (yref selection)
                          (x xAndy) (y xAndy)])%list
    else selectedBoxes in
  if strict_eq (type selection) "path"
  then
    match path selection with
    | Some pathData =>
        let xAndy := parseLassoPath Number pathData in
        Returned (selectedBoxes,
                  (selectedLassos ++
                   [mkPlotlySelection (xref selection) (yref selection)
                                      (x xAndy) (y xAndy)])%list)
    | None => Thrown TypeError
    end
  else Returned (selectedBoxes, selectedLassos).

Fixpoint collectSelections
         (acc : list (PlotlySelection value value value) *
                list (PlotlySelection value num (option num)))
         (l : list (Selection value))
  : Completion (list (PlotlySelection value value value) *
                list (PlotlySelection value num (option num))) :=
  match l with
  | [] => Returned acc
  | selection :: rest =>
      match collectSelection acc selection with
      | Returned acc' => collectSelections acc' rest
      | Thrown e => Thrown e
      end
  end.

(** The state [handleSelection] builds from an event, up to the two tests on
    the selection mode. *)
Definition selectionStateOf (event : PlotSelectionEvent)
  : Completion (PlotlyWidgetState num value SnakePoint) :=
  match collectPoints ([], []) (event_points event) with
  | Thrown e => Thrown e
  | Returned (selectedPoints, selectedPointIndices) =>
      match
        match selections event with
        | Some l => collectSelections ([], []) l
        | None => Returned ([], [])
        end
      with
      | Thrown e => Thrown e
      | Returned (selectedBoxes, selectedLassos) =>
          Returned (mkPlotlyWidgetState
                      (mkSelect (map keysToSnakeCase selectedPoints)
                                selectedPointIndices
                                selectedBoxes
                                selectedLassos))
      end
  end.

(** The end of [handleSelection] and of [sendEmptySelection]: the value is
    set only when it is not the current one. [current] is what
    [widgetMgr.getStringValue(element)] returns. *)
Definition setIfChanged (current : option string)
           (state : PlotlyWidgetState num value SnakePoint)
           (fragment : option string) : option SetStringValue :=
  let newSelectionState := stringify state in
  if negb (strict_eq current newSelectionState)
  then Some (mkSetStringValue newSelectionState true fragment)
  else None.

(** [handleSelection]: the call of [widgetMgr.setStringValue] it makes, if
    any. An array is truthy, so each of the two tests on the selection mode
    comes down to its second half. *)
Definition handleSelection (event : option PlotSelectionEvent)
           (current : option string) (selectionMode : list SelectionMode)
           (fragment : option string) : Completion (option SetStringValue) :=
  match event with
  | None => Returned None
  | Some event =>
      match selectionStateOf event with
      | Thrown e => Thrown e
      | Returned selectionState =>
          if true && negb (includes selectionMode BOX)
          then Returned None
          else if true && negb (includes selectionMode LASSO)
          then Returned None
          else Returned (setIfChanged current selectionState fragment)
      end
  end.

Definition emptySelectionState : PlotlyWidgetState num value SnakePoint :=
  mkPlotlyWidgetState (mkSelect [] [] [] []).

Definition sendEmptySelection (current : option string)
           (fragment : option string) : option SetStringValue :=
  setIfChanged current emptySelectionState fragment.

End WithHost.

End PlotlyChart.

(** ** Vocabulary for the properties of the selection code *)

Module LassoPath.

Fixpoint has_char (c : ascii) (s : string) : bool :=
  match s with
  | EmptyString => false
  | String a s' => Ascii.eqb a c || has_char c s'
  end.

Fixpoint count_char (c : ascii) (s : string) : nat :=
  match s with
  | EmptyString => 0
  | String a s' => (if Ascii.eqb a c then 1 else 0) + count_char c s'
  end.

(** A coordinate as the plotting library prints it has none of the
    characters that structure a path. *)
Definition coordinate (s : string) : bool :=
  negb (has_char "M" s || has_char "Z" s || has_char "L" s || has_char "," s).

Definition point (p : string * string) : string :=
  fst p ++ String "," (snd p).

Fixpoint points (first : string * string) (others : list (string * string))
  : string :=
  match others with
  | [] => point first
  | next :: others' => point first ++ String "L" (points next others')
  end.

(** The path of the points: [M], the points with [L] between them, and [Z]
    when the path is closed. *)
Definition path (first : string * string) (others : list (string * string))
           (closed : bool) : string :=
  String "M" (points first others ++ (if closed then "Z" else "")).

End LassoPath.

(** A point both of whose coordinates are as the library prints them. *)
Definition clean_point (p : string * string) : Prop :=
  LassoPath.coordinate (fst p) = true /\ LassoPath.coordinate (snd p) = true.





(** The indices a point contributes: its [pointIndex], then its
    [pointIndices]. *)
Definition indicesOf {host : PlotlyChart.Host} (point : PlotlyChart.Point)
  : list PlotlyChart.num :=
  (match PlotlyChart.pointIndex point with
   | Some i => [i]
   | None => []
   end ++ (PlotlyChart.pointIndices point ?? []))%list.

(** The object pushed for a point that has [data]. *)
Definition selectedPointOf {host : PlotlyChart.Host}
           (point : PlotlyChart.Point)
  : PlotlyChart.SelectedPoint PlotlyChart.Point :=
  PlotlyChart.mkSelectedPoint
    point
    (PlotlyChart.legendgroupOrUndefined
       match PlotlyChart.data point with
       | Some pointData => PlotlyChart.data_legendgroup pointData
       | None => None
       end).

(** The object pushed for a point, through [keysToSnakeCase]. *)
Definition snakePointOf {host : PlotlyChart.Host} (point : PlotlyChart.Point)
  : PlotlyChart.SnakePoint :=
  PlotlyChart.keysToSnakeCase (selectedPointOf point).

(** A host for concrete runs: numbers are naturals and [Number] counts the
    characters of its argument; a point is its index and its indices, with
    the legend group of its data when it has data. *)
Module SampleHost.

Definition host : PlotlyChart.Host :=
  {| PlotlyChart.num := nat;
     PlotlyChart.Number := String.length;
     PlotlyChart.sameValueZero := Nat.eqb;
     PlotlyChart.value := string;
     PlotlyChart.Point :=
       option nat * option (list nat) * option (option string);
     PlotlyChart.pointIndex := fun p => fst (fst p);
     PlotlyChart.pointIndices := fun p => snd (fst p);
     PlotlyChart.PlotData := option string;
     PlotlyChart.data := snd;
     PlotlyChart.data_legendgroup := fun g => g;
     PlotlyChart.SnakePoint :=
       option nat * option (list nat) * option (option string);
     PlotlyChart.keysToSnakeCase := PlotlyChart.spread;
     PlotlyChart.stringify :=
       fun state =>
         if Nat.eqb (length (PlotlyChart.points (PlotlyChart.select state)) +
                     length (PlotlyChart.box (PlotlyChart.select state)) +
                     length (PlotlyChart.lasso (PlotlyChart.select state))) 0
         then "empty" else "selection" |}.

Definition rect : PlotlyChart.Selection string :=
  PlotlyChart.mkSelection (Some "rect") "x" "y" None
                          (present "0.1") (present "0.2")
                          (present "0.3") (present "0.4").

Definition lasso : PlotlyChart.Selection string :=
  PlotlyChart.mkSelection (Some "path") "x" "y" (Some "M1,22L333,4444Z")
                          absent absent absent absent.


Definition event : @PlotlyChart.PlotSelectionEvent host :=
  @PlotlyChart.mkPlotSelectionEvent host
    (Some [rect; lasso])
    [(Some 3, None, Some None);
     (None, Some [3; 5; 5], Some (Some "group"));
     (Some 1, Some [], Some (Some ""))].

(** The state of [event]. *)
Definition state
  : PlotlyChart.PlotlyWidgetState
      nat string (option nat * option (list nat) * option (option string)) :=
  PlotlyChart.mkPlotlyWidgetState
    (PlotlyChart.mkSelect
       [(Some 3, None, Some None);
        (None, Some [3; 5; 5], Some (Some "group"));
        (Some 1, Some [], Some (Some ""))]
       [3; 5; 1]
       [PlotlyChart.mkPlotlySelection "x" "y" ["0.1"; "0.2"] ["0.3"; "0.4"]]
       [PlotlyChart.mkPlotlySelection "x" "y" [1; 3] [Some 2; Some 4]]).


Definition emptyEvent : @PlotlyChart.PlotSelectionEvent host :=
  @PlotlyChart.mkPlotSelectionEvent host None [].


End SampleHost.

(** ** PlotlyFigure: interaction modes, mode bar and size of a chart

    The computations of the component [PlotlyFigure] that do not depend on
    the rendering library: the update of the layout's modes when the
    selection mode changes, the configuration of the mode bar, and the width
    given to the figure. *)

From Stdlib Require Import QArith Qminmax Lqa.
Close Scope Q_scope.

Module PlotlyFigure.

Definition isSelectionActivated (selectionMode : list PlotlyChart.SelectionMode)
           (disabled : bool) : bool :=
  Nat.ltb 0 (length selectionMode) && negb disabled.

Definition isLassoSelectionActivated
           (selectionMode : list PlotlyChart.SelectionMode) : bool :=
  PlotlyChart.includes selectionMode PlotlyChart.LASSO.

Definition isBoxSelectionActivated
           (selectionMode : list PlotlyChart.SelectionMode) : bool :=
  PlotlyChart.includes selectionMode PlotlyChart.BOX.

Definition isPointsSelectionActivated
           (selectionMode : list PlotlyChart.SelectionMode) : bool :=
  PlotlyChart.includes selectionMode PlotlyChart.POINTS.

(** A mode of the layout ([clickmode], [hovermode], [dragmode]): a string,
    [false], or not set. *)
Inductive Mode : Type :=
| notSet
| isFalse
| named (s : string).

(** Truthiness of a mode. *)
Definition isSet (m : Mode) : bool :=
  match m with
  | named s => negb (String.eqb s "")
  | _ => false
  end.

(** The three keys of [layout] that the update touches. *)
Record Layout : Type := mkLayout {
  clickmode : Mode;
  hovermode : Mode;
  dragmode : Mode
}.

(** The function given to [setPlotlyFigure] when the selection mode of the
    element changes: [initial] is [initialFigureSpec.layout], [prevState] is
    the layout of the figure in the state, which is changed and returned. *)
Definition applySelectionMode (selectionMode : list PlotlyChart.SelectionMode)
           (disabled : bool) (initial : Layout) (prevState : Layout) : Layout :=
  if isSelectionActivated selectionMode disabled
  then
    let prevState :=
      if negb (isSet (hovermode initial))
      then
        if isPointsSelectionActivated selectionMode
        then mkLayout (named "event+select") (hovermode prevState)
                      (dragmode prevState)
        else mkLayout (named "event") (hovermode prevState)
                      (dragmode prevState)
      else prevState in
    let prevState :=
      if negb (isSet (hovermode initial))
      then mkLayout (clickmode prevState) (named "closest")
                    (dragmode prevState)
      else prevState in
    if negb (isSet (dragmode initial))
    then
      if isPointsSelectionActivated selectionMode
      then mkLayout (clickmode prevState) (hovermode prevState) (named "pan")
      else if isBoxSelectionActivated selectionMode
      then mkLayout (clickmode prevState) (hovermode prevState)
                    (named "select")
      else if isLassoSelectionActivated selectionMode
      then mkLayout (clickmode prevState) (hovermode prevState)
                    (named "lasso")
      else mkLayout (clickmode prevState) (hovermode prevState) (named "pan")
    else prevState
  else
    mkLayout (clickmode initial) (hovermode initial) (dragmode initial).

(** The button added to the mode bar. *)
Inductive Icon : Type :=
| FULLSCREEN_EXPAND_ICON
| FULLSCREEN_COLLAPSE_ICON.

(** What the button's [click] does. *)
Inductive Click : Type :=
| callsCollapse
| callsExpand
| callsNothing.

Record Button : Type := mkButton {
  name : string;
  icon : Icon;
  click : Click
}.

(** [modeBarButtonsToAdd]: what the user's configuration held ([J] is the
    type of such values), or the one button of the component. *)
Inductive ButtonsToAdd (J : Type) : Type :=
| fromUser (j : J)
| fullscreenButton (b : Button).

Arguments fromUser {J} j.
Arguments fullscreenButton {J} b.

(** The three keys of the configuration that the component touches. *)
Record Config (J : Type) : Type := mkConfig {
  modeBarButtonsToAdd : option (ButtonsToAdd J);
  modeBarButtonsToRemove : option (list string);
  displaylogo : option bool
}.

Arguments mkConfig {J} _ _ _.
Arguments modeBarButtonsToAdd {J} _.
Arguments modeBarButtonsToRemove {J} _.
Arguments displaylogo {J} _.

(** The function given to [useMemo] for [plotlyConfig]. [config] is the
    parsed [element.figure.config], or nothing when the element has no
    configuration string or an empty one. [hasCollapse] and [hasExpand] say
    whether the callbacks were passed. *)
Definition plotlyConfig {J : Type} (config : option (Config J))
           (isFullScreen disableFullscreenMode hasCollapse hasExpand : bool)
           (selectionMode : list PlotlyChart.SelectionMode) (disabled : bool)
  : Config J :=
  match config with
  | None => mkConfig None None None
  | Some config =>
      let config :=
        if negb disableFullscreenMode
        then
          mkConfig
            (Some (fullscreenButton
               (mkButton
                  (if isFullScreen then "Close fullscreen" else "Fullscreen")
                  (if isFullScreen
                   then FULLSCREEN_COLLAPSE_ICON
                   else FULLSCREEN_EXPAND_ICON)
                  (if isFullScreen && hasCollapse then callsCollapse
                   else if hasExpand then callsExpand
                   else callsNothing))))
            (modeBarButtonsToRemove config)
            (displaylogo config)
        else config in
      match modeBarButtonsToRemove config with
      | None =>
          let modeBarButtonsToRemove := ["sendDataToCloud"] in
          let modeBarButtonsToRemove :=
            if negb (isSelectionActivated selectionMode disabled)
            then (modeBarButtonsToRemove ++ ["lasso2d"; "select2d"])%list
            else
              let modeBarButtonsToRemove :=
                if negb (isLassoSelectionActivated selectionMode)
                then (modeBarButtonsToRemove ++ ["lasso2d"])%list
                else modeBarButtonsToRemove in
              if negb (isBoxSelectionActivated selectionMode)
              then (modeBarButtonsToRemove ++ ["select2d"])%list
              else modeBarButtonsToRemove in
          mkConfig (modeBarButtonsToAdd config)
                   (Some modeBarButtonsToRemove)
                   (Some false)
      | Some _ => config
      end
  end.

Definition MIN_WIDTH : Q := 150%Q.

(** [calculatedWidth]; [layoutWidth] is [initialFigureSpec.layout.width].
    The numbers are finite. *)
Definition calculatedWidth (useContainerWidth isFullScreen : bool)
           (width : Q) (layoutWidth : option Q) : Q :=
  let calculatedWidth :=
    Qmax (if useContainerWidth
          then width
          else Qmin (layoutWidth ?? width) width)
         MIN_WIDTH in
  if isFullScreen then width else calculatedWidth.

End PlotlyFigure.

(** * Properties *)

(** ** Concrete runs *)

(** The title suffix: a space, the two bytes of U+00B7, a space and the
    product name. *)
Example middot_Streamlit_bytes :
  middot_Streamlit =
  String (Ascii.ascii_of_nat 32)
         (String (Ascii.ascii_of_nat 194)
                 (String (Ascii.ascii_of_nat 183) " Streamlit")).
Proof. reflexivity. Qed.

(** A header that comes twice keeps its first place and its last value; an
    absent header and an empty one share the key [""]. *)
Example buildNavPageSections_duplicates :
  AppNavigationV2.buildNavPageSections
    [INavigationSection.mk (Some "A") (Some [Sample.p1]);
     INavigationSection.mk None (Some [Sample.p2]);
     INavigationSection.mk (Some "A") (Some [Sample.p3]);
     INavigationSection.mk (Some "") None] =
  [("A", Some [Sample.p3]); ("", None)].
Proof. reflexivity. Qed.

(** A session with two pages on a new dispatcher, then a navigation: the
    legacy strategy is created first and the sectioned one replaces it. *)
Example sample_strategies :
  strategies [(EvNewSession Sample.onePageSession, true);
              (EvNewSession (Sample.session None), true);
              (EvPageNotFound Sample.pageNotFound, true);
              (EvNavigation (Sample.navigation "zz"), true);
              (EvNewSession (Sample.session None), true)]
             Sample.fresh =
  [NoStrategy; NoStrategy; Legacy; Legacy; Sectioned; Sectioned].
Proof. reflexivity. Qed.

(** The outward calls of the legacy strategy over a session, a page that is
    not found and the two procedures. *)
Example sample_legacy_calls :
  calls (processAll [(EvNewSession (Sample.session None), true);
                     (EvPageNotFound Sample.pageNotFound, true)]
                    Sample.fresh) =
  [onUpdatePageUrl "Home" (Some "About") false;
   metricsEnqueue "updateReport" 2 (Some false);
   sendMessageToHost (SET_APP_PAGES [Sample.home; Sample.about]);
   sendMessageToHost (SET_CURRENT_PAGE_NAME (Some "About") (Some "h2"));
   onPageNotFound "missing";
   sendMessageToHost (SET_CURRENT_PAGE_NAME (Some "") (Some "h1"))].
Proof. reflexivity. Qed.

(** ** The monad *)

Ltac run :=
  cbv [bind ret throw call setTitle load store alloc getVersionManager
       setVersionManager AppNavigationV1.new] in *; cbn [fst snd] in *.

Lemma or_empty_eq (s : option string) : or_empty s = s ?? "".
Proof.
  destruct s as [v|]; cbn; [|reflexivity].
  destruct (String.eqb_spec v ""); congruence.
Qed.

(** ** The [Map] *)

Lemma JsMap_get_set {V : Type} (m : JsMap.t V) (k k' : string) (v : V) :
  JsMap.get (JsMap.set m k v) k' =
  if String.eqb k k' then Some v else JsMap.get m k'.
Proof.
  induction m as [|[k0 v0] m IH]; cbn.
  - reflexivity.
  - destruct (String.eqb_spec k0 k) as [->|Hne]; cbn.
    + destruct (String.eqb k k'); reflexivity.
    + rewrite IH.
      destruct (String.eqb_spec k0 k') as [->|Hne'].
      * destruct (String.eqb_spec k k'); congruence.
      * reflexivity.
Qed.

Lemma JsMap_keys_set {V : Type} (m : JsMap.t V) (k : string) (v : V) :
  JsMap.keys (JsMap.set m k v) =
  if existsb (String.eqb k) (JsMap.keys m)
  then JsMap.keys m
  else (JsMap.keys m ++ [k])%list.
Proof.
  induction m as [|[k0 v0] m IH]; cbn.
  - reflexivity.
  - rewrite (String.eqb_sym k k0).
    destruct (String.eqb k0 k); cbn.
    + reflexivity.
    + fold (JsMap.keys (JsMap.set m k v)). fold (JsMap.keys m).
      rewrite IH. destruct (existsb (String.eqb k) (JsMap.keys m)); reflexivity.
Qed.

Lemma fold_sections_get (sections : list INavigationSection.t) :
  forall (m : JsMap.t (option (list IAppPage.t))) (k : string),
    JsMap.get (fold_left setSection sections m) k =
    match last_write k sections with
    | Some v => Some v
    | None => JsMap.get m k
    end.
Proof.
  induction sections as [|s rest IH]; intros m k; cbn [fold_left last_write].
  - reflexivity.
  - rewrite IH. destruct (last_write k rest) as [v|]; [reflexivity|].
    unfold setSection. rewrite JsMap_get_set, or_empty_eq.
    destruct (String.eqb (INavigationSection.header s ?? "") k);
      reflexivity.
Qed.

Lemma fold_sections_keys (sections : list INavigationSection.t) :
  forall m : JsMap.t (option (list IAppPage.t)),
    JsMap.keys (fold_left setSection sections m) =
    (JsMap.keys m ++ first_keys (JsMap.keys m) sections)%list.
Proof.
  induction sections as [|s rest IH]; intros m; cbn [fold_left first_keys].
  - now rewrite app_nil_r.
  - rewrite IH. unfold setSection at 1 2. rewrite JsMap_keys_set, or_empty_eq.
    destruct (existsb (String.eqb (INavigationSection.header s ?? ""))
                      (JsMap.keys m)).
    + reflexivity.
    + now rewrite <- app_assoc.
Qed.

(** ** Looking a page up by its hash *)

Lemma find_hash_some (hash : string) (pages : list IAppPage.t)
      (cur : IAppPage.t) :
  find (fun p => strict_eq (IAppPage.pageScriptHash p) hash) pages = Some cur ->
  In cur pages /\ IAppPage.pageScriptHash cur = Some hash.
Proof.
  intros H. apply find_some in H. destruct H as [Hin Heq].
  split; [exact Hin|].
  destruct (IAppPage.pageScriptHash cur) as [h|]; cbn in Heq; [|discriminate].
  apply String.eqb_eq in Heq. now subst.
Qed.

Lemma find_hash_none (hash : string) (pages : list IAppPage.t) :
  find (fun p => strict_eq (IAppPage.pageScriptHash p) hash) pages = None ->
  ~ has_page hash pages.
Proof.
  intros H [p [Hin Hp]].
  pose proof (find_none _ _ H p Hin) as Hf. cbn in Hf.
  rewrite Hp in Hf. cbn in Hf. rewrite String.eqb_refl in Hf. discriminate.
Qed.

Lemma has_page_find (hash : string) (pages : list IAppPage.t) :
  has_page hash pages ->
  exists cur,
    find (fun p => strict_eq (IAppPage.pageScriptHash p) hash) pages = Some cur.
Proof.
  intros H.
  destruct (find (fun p => strict_eq (IAppPage.pageScriptHash p) hash) pages)
    as [cur|] eqn:E.
  - now exists cur.
  - exfalso. exact (find_hash_none _ _ E H).
Qed.

(** ** [AppNavigationV2.handleNavigation], both ways out *)

Lemma V2_handleNavigation_found (nav : Navigation.t) (cur : IAppPage.t)
      (w : World) :
  find (fun p => strict_eq (IAppPage.pageScriptHash p)
                           (Navigation.pageScriptHash nav))
       (AppNavigationV2.flattenAppPages (Navigation.sections nav)) = Some cur ->
  exists procedure : Procedure,
    AppNavigationV2.handleNavigation nav w =
    (after_calls w
       [metricsEnqueue "updateReport"
          (length (AppNavigationV2.flattenAppPages (Navigation.sections nav)))
          (IAppPage.isDefault cur);
        onUpdatePageUrl "" (currentPageNameOf cur)
                        (IAppPage.isDefault cur ?? false)],
     Returned (Some
       (AppNavigationState.mk
          (present (String.eqb (Navigation.position nav) "hidden"))
          (present [])
          (present (Some (Navigation.pageScriptHash nav)))
          (present (AppNavigationV2.buildNavPageSections
                      (Navigation.sections nav))),
        procedure))) /\
    forall w0 : World,
      procedure w0 =
      (after_calls w0
         [sendMessageToHost
            (SET_APP_PAGES
               (AppNavigationV2.flattenAppPages (Navigation.sections nav)));
          sendMessageToHost
            (SET_CURRENT_PAGE_NAME (currentPageNameOf cur)
                                   (Some (Navigation.pageScriptHash nav)))],
       Returned tt).
Proof.
  intros Hfind. destruct (find_hash_some _ _ _ Hfind) as [_ Hhash].
  unfold AppNavigationV2.handleNavigation. rewrite Hfind, Hhash.
  eexists. split.
  - run. unfold after_calls. cbn [heap next versionManager title calls].
    rewrite <- app_assoc. reflexivity.
  - intros w0. run. unfold after_calls.
    cbn [heap next versionManager title calls].
    rewrite <- app_assoc. reflexivity.
Qed.

Lemma V2_handleNavigation_not_found (nav : Navigation.t) (w : World) :
  find (fun p => strict_eq (IAppPage.pageScriptHash p)
                           (Navigation.pageScriptHash nav))
       (AppNavigationV2.flattenAppPages (Navigation.sections nav)) = None ->
  AppNavigationV2.handleNavigation nav w = (w, Thrown TypeError).
Proof.
  intros Hfind. unfold AppNavigationV2.handleNavigation. rewrite Hfind.
  reflexivity.
Qed.

(** ** What the strategies leave alone *)

Ltac unfold_handlers :=
  cbv [handle AppNavigation.handleNewSession AppNavigation.handlePagesChanged
       AppNavigation.handleNavigation AppNavigation.handlePageNotFound
       AppNavigationV1.handleNewSession AppNavigationV1.handlePagesChanged
       AppNavigationV1.handlePageNotFound AppNavigationV2.handleNewSession
       AppNavigationV2.handleNavigation AppNavigationV2.handlePagesChanged
       AppNavigationV2.handlePageNotFound] in *.

#[local] Arguments AppNavigationV1.handleNewSession : simpl never.
#[local] Arguments AppNavigationV1.handlePagesChanged : simpl never.
#[local] Arguments AppNavigationV1.handlePageNotFound : simpl never.
#[local] Arguments AppNavigationV2.handleNewSession : simpl never.
#[local] Arguments AppNavigationV2.handleNavigation : simpl never.

Lemma V1_handleNewSession_versionManager (this : Ref) (msg : NewSession.t)
      (w : World) :
  versionManager (fst (AppNavigationV1.handleNewSession this msg w)) =
  versionManager w.
Proof.
  unfold_handlers. destruct (NewSession.appPages msg); reflexivity.
Qed.

Lemma V2_handleNavigation_versionManager (msg : Navigation.t) (w : World) :
  versionManager (fst (AppNavigationV2.handleNavigation msg w)) =
  versionManager w.
Proof.
  unfold_handlers.
  destruct (find _ (AppNavigationV2.flattenAppPages (Navigation.sections msg)));
    reflexivity.
Qed.

(** Each handler keeps the strategy or promotes it. *)
Lemma handle_active (e : Event) (w : World) :
  active (fst (handle e w)) = active w \/
  promotion (active w) (active (fst (handle e w))).
Proof.
  destruct e as [msg|msg|msg|msg]; cbn [handle].
  - unfold AppNavigation.handleNewSession, active. run.
    destruct (versionManager w) as [[this|]|] eqn:Hvm.
    + rewrite andb_false_r. cbn. rewrite Hvm.
      rewrite V1_handleNewSession_versionManager, Hvm. now left.
    + rewrite andb_false_r. cbn. rewrite Hvm.
      unfold AppNavigationV2.handleNewSession. run. cbn. rewrite Hvm.
      now left.
    + rewrite andb_true_r.
      destruct (Nat.ltb 1 (length (NewSession.appPages msg))); cbn.
      * rewrite V1_handleNewSession_versionManager. cbn. right. constructor.
      * rewrite Hvm. cbn. rewrite Hvm. now left.
  - unfold_handlers. unfold active. run.
    destruct (versionManager w) as [[this|]|] eqn:Hvm; cbn; rewrite ?Hvm;
      now left.
  - unfold AppNavigation.handleNavigation, active. run.
    destruct (versionManager w) as [[this|]|] eqn:Hvm; cbn;
      rewrite V2_handleNavigation_versionManager; cbn; rewrite ?Hvm.
    + right. constructor.
    + now left.
    + right. constructor.
  - unfold_handlers. unfold active. run.
    destruct (versionManager w) as [[this|]|] eqn:Hvm; cbn; rewrite ?Hvm;
      now left.
Qed.

(** A procedure handed back by a handler only sends messages to the host. *)
Lemma handle_procedure_versionManager (e : Event) (w w' : World)
      (patch : AppNavigationState.partial) (procedure : Procedure) :
  handle e w = (w', Returned (Some (patch, procedure))) ->
  forall w0 : World, versionManager (fst (procedure w0)) = versionManager w0.
Proof.
  intros H w0. revert H.
  destruct e as [msg|msg|msg|msg]; unfold_handlers; run;
    destruct (versionManager w) as [[this|]|] eqn:Hvm;
    rewrite ?andb_false_r, ?andb_true_r; cbn [andb];
    repeat match goal with
      | |- context [match ?l with [] => _ | _ :: _ => _ end] => destruct l
      | |- context [if ?b then _ else _] => destruct b
      | |- context [find ?f ?l] => destruct (find f l)
      end;
    cbn; rewrite ?Hvm;
    intros H; try discriminate H; injection H as _ _ <-; reflexivity.
Qed.

Lemma process_active (e : Event) (runProcedure : bool) (w : World) :
  active (process e runProcedure w) = active w \/
  promotion (active w) (active (process e runProcedure w)).
Proof.
  pose proof (handle_active e w) as H. unfold process.
  destruct (handle e w) as [w' [[[patch procedure]|]|exn]] eqn:He;
    cbn [fst] in H; try exact H.
  destruct runProcedure; [|exact H].
  unfold active in *.
  now rewrite (handle_procedure_versionManager _ _ _ _ _ He w').
Qed.

(** ** The pages of a message *)

Lemma flattenAppPages_sectionPages (sections : list INavigationSection.t) :
  AppNavigationV2.flattenAppPages sections = sectionPages sections.
Proof.
  unfold AppNavigationV2.flattenAppPages, sectionPages.
  apply flat_map_concat_map.
Qed.

Lemma In_sectionPages (sections : list INavigationSection.t) (page : IAppPage.t) :
  In page (sectionPages sections) <->
  exists (section : INavigationSection.t) (pages : list IAppPage.t),
    In section sections /\
    INavigationSection.appPages section = Some pages /\
    In page pages.
Proof.
  unfold sectionPages. rewrite <- flat_map_concat_map, in_flat_map. split.
  - intros [section [Hs Hp]].
    destruct (INavigationSection.appPages section) as [pages|] eqn:E;
      cbn in Hp; [|contradiction].
    now exists section, pages.
  - intros [section [pages [Hs [E Hp]]]]. exists section.
    split; [exact Hs|]. rewrite E. exact Hp.
Qed.

Lemma message_has_page_iff (msg : Navigation.t) :
  message_has_page msg <->
  has_page (Navigation.pageScriptHash msg)
           (AppNavigationV2.flattenAppPages (Navigation.sections msg)).
Proof.
  rewrite flattenAppPages_sectionPages. unfold message_has_page, has_page.
  split.
  - intros [section [pages [page [Hs [E [Hp Hh]]]]]]. exists page.
    split; [|exact Hh]. apply In_sectionPages. now exists section, pages.
  - intros [page [Hin Hh]]. apply In_sectionPages in Hin.
    destruct Hin as [section [pages [Hs [E Hp]]]].
    now exists section, pages, page.
Qed.

(** The dispatcher hands every [Navigation] to the sectioned strategy. *)
Lemma AppNavigation_handleNavigation_forward (msg : Navigation.t) (w : World) :
  AppNavigation.handleNavigation msg w =
  AppNavigationV2.handleNavigation msg (with_V2 w).
Proof.
  unfold AppNavigation.handleNavigation, with_V2. run.
  destruct w as [hp nx [[this|]|] ti cs]; reflexivity.
Qed.

(** ** Claims *)

(** C1. Along every sequence of events handled by one dispatcher, whether or
    not the owner runs the procedures handed back and whether or not a
    handler throws, the active strategy changes only from none to legacy,
    from none to sectioned, or from legacy to sectioned; and from a state
    in which the sectioned strategy is active every later state has the
    sectioned strategy active, so the legacy one never comes back. *)
Theorem strategy_only_promoted :
  forall (es : list (Event * bool)) (w : World),
    promotions_only (strategies es w) /\
    (active w = Sectioned ->
     Forall (fun s => s = Sectioned) (strategies es w)).
Proof.
  induction es as [|[e b] es IH]; intros w.
  - cbn. split; [exact I|]. intros H. constructor; [exact H|constructor].
  - destruct (IH (process e b w)) as [IHp IHs].
    pose proof (process_active e b w) as Hstep.
    split.
    + cbn [strategies promotions_only].
      destruct es as [|[e' b'] es']; cbn [strategies] in *; (split; [|exact IHp]);
        destruct Hstep as [Heq|Hpr]; auto.
    + intros Hw. cbn [strategies]. constructor; [exact Hw|].
      apply IHs. destruct Hstep as [Heq|Hpr]; [congruence|].
      rewrite Hw in Hpr. inversion Hpr.
Qed.

Lemma strategy_only_promoted_witness :
  Forall (fun s => s = Sectioned)
         (strategies [(EvNewSession (Sample.session None), true);
                      (EvPagesChanged Sample.pagesChanged, true);
                      (EvPageNotFound Sample.pageNotFound, false);
                      (EvNewSession Sample.emptySession, true)]
                     Sample.sectioned).
Proof.
  apply (proj2 (strategy_only_promoted _ Sample.sectioned)). reflexivity.
Defined.

(** C2. [AppNavigation.handleNewSession]: with no strategy and more than one
    page a legacy strategy is created, becomes the active one and is handed
    the event; a strategy that is already active, of either version, is
    handed the event and stays the active one; with no strategy and exactly
    one page nothing is returned, nothing changes and no strategy becomes
    active. *)
Theorem handleNewSession_selection :
  forall (msg : NewSession.t) (w : World),
    (versionManager w = None ->
     1 < length (NewSession.appPages msg) ->
     AppNavigation.handleNewSession msg w =
       AppNavigationV1.handleNewSession (next w) msg (with_new_V1 w) /\
     versionManager (fst (AppNavigation.handleNewSession msg w)) =
       Some (V1 (next w))) /\
    (forall this : Ref,
       versionManager w = Some (V1 this) ->
       AppNavigation.handleNewSession msg w =
         AppNavigationV1.handleNewSession this msg w /\
       versionManager (fst (AppNavigation.handleNewSession msg w)) =
         Some (V1 this)) /\
    (versionManager w = Some V2 ->
     AppNavigation.handleNewSession msg w =
       AppNavigationV2.handleNewSession msg w /\
     versionManager (fst (AppNavigation.handleNewSession msg w)) = Some V2) /\
    (versionManager w = None ->
     length (NewSession.appPages msg) = 1 ->
     AppNavigation.handleNewSession msg w = (w, Returned None) /\
     versionManager (fst (AppNavigation.handleNewSession msg w)) = None).
Proof.
  intros msg w. unfold AppNavigation.handleNewSession. run.
  split; [|split; [|split]].
  - intros Hvm Hlen. apply Nat.ltb_lt in Hlen. rewrite Hvm, Hlen.
    cbn [andb versionManager]. split; [reflexivity|].
    now rewrite V1_handleNewSession_versionManager.
  - intros this Hvm. rewrite Hvm, andb_false_r. cbn. rewrite Hvm.
    split; [reflexivity|].
    now rewrite V1_handleNewSession_versionManager.
  - intros Hvm. rewrite Hvm, andb_false_r. cbn. rewrite Hvm.
    split; [reflexivity|].
    unfold AppNavigationV2.handleNewSession. run. exact Hvm.
  - intros Hvm Hlen. rewrite Hvm, Hlen. cbn. rewrite Hvm.
    split; [reflexivity|exact Hvm].
Qed.

Lemma handleNewSession_selection_witness :
  (AppNavigation.handleNewSession (Sample.session None) Sample.fresh =
     AppNavigationV1.handleNewSession 0 (Sample.session None)
                                      (with_new_V1 Sample.fresh) /\
   versionManager
     (fst (AppNavigation.handleNewSession (Sample.session None) Sample.fresh)) =
     Some (V1 0)) /\
  (AppNavigation.handleNewSession Sample.emptySession Sample.legacy =
     AppNavigationV1.handleNewSession 0 Sample.emptySession Sample.legacy /\
   versionManager
     (fst (AppNavigation.handleNewSession Sample.emptySession Sample.legacy)) =
     Some (V1 0)) /\
  (AppNavigation.handleNewSession (Sample.session None) Sample.sectioned =
     AppNavigationV2.handleNewSession (Sample.session None) Sample.sectioned /\
   versionManager
     (fst (AppNavigation.handleNewSession (Sample.session None)
                                          Sample.sectioned)) = Some V2) /\
  (AppNavigation.handleNewSession Sample.onePageSession Sample.fresh =
     (Sample.fresh, Returned None) /\
   versionManager
     (fst (AppNavigation.handleNewSession Sample.onePageSession Sample.fresh)) =
     None).
Proof.
  split; [|split; [|split]].
  - apply (proj1 (handleNewSession_selection (Sample.session None)
                                             Sample.fresh)).
    + reflexivity.
    + cbn. lia.
  - apply (proj1 (proj2 (handleNewSession_selection Sample.emptySession
                                                    Sample.legacy))).
    reflexivity.
  - apply (proj1 (proj2 (proj2 (handleNewSession_selection
                                  (Sample.session None) Sample.sectioned)))).
    reflexivity.
  - apply (proj2 (proj2 (proj2 (handleNewSession_selection
                                  Sample.onePageSession Sample.fresh)))).
    + reflexivity.
    + reflexivity.
Defined.

(** C3. [AppNavigation.handleNavigation]: whatever the strategy was (none,
    legacy or sectioned), the event is handled by the sectioned strategy in
    a world where the sectioned strategy is the dispatcher's, and the
    sectioned strategy is the active one afterwards, also when the handler
    throws; a legacy strategy that was active is no longer referred to. *)
Theorem handleNavigation_selects_V2 :
  forall (msg : Navigation.t) (w : World),
    AppNavigation.handleNavigation msg w =
      AppNavigationV2.handleNavigation msg (with_V2 w) /\
    versionManager (fst (AppNavigation.handleNavigation msg w)) = Some V2 /\
    active (process (EvNavigation msg) true w) = Sectioned /\
    active (process (EvNavigation msg) false w) = Sectioned.
Proof.
  intros msg w.
  pose proof (AppNavigation_handleNavigation_forward msg w) as Heq.
  assert (Hvm : versionManager (fst (AppNavigation.handleNavigation msg w)) =
                Some V2).
  { rewrite Heq. now rewrite V2_handleNavigation_versionManager. }
  assert (Hact : forall b, active (process (EvNavigation msg) b w) = Sectioned).
  { intros b. unfold process.
    destruct (handle (EvNavigation msg) w)
      as [w' [[[patch procedure]|]|exn]] eqn:He;
      cbn [handle] in He; rewrite He in Hvm; cbn [fst] in Hvm;
      unfold active; try (now rewrite Hvm).
    destruct b; [|now rewrite Hvm].
    rewrite (handle_procedure_versionManager (EvNavigation msg) _ _ _ _ He).
    now rewrite Hvm. }
  repeat split; auto.
Qed.

(** C4. [AppNavigationV2.handleNavigation] on a message one of whose sections
    lists a page with the message's hash: the handler returns; the patch has
    [appPages] set to the empty list and carries the pages in
    [navPageSections], where under every header stands the page list of the
    last section with that header; the procedure sends [SET_APP_PAGES] with
    all the pages of all the sections of the message, in message order, and
    then [SET_CURRENT_PAGE_NAME] with the name of the current page (the
    empty string when it is the default page) and its hash, where the
    current page is the first of all those pages that has the message's
    hash. *)
Theorem V2_handleNavigation_patch_and_messages :
  forall (msg : Navigation.t) (w : World),
    message_has_page msg ->
    exists (currentPage : IAppPage.t) (w' : World)
           (patch : AppNavigationState.partial) (procedure : Procedure)
           (navPageSections : JsMap.t (option (list IAppPage.t))),
      find (fun p => strict_eq (IAppPage.pageScriptHash p)
                               (Navigation.pageScriptHash msg))
           (sectionPages (Navigation.sections msg)) = Some currentPage /\
      IAppPage.pageScriptHash currentPage =
        Some (Navigation.pageScriptHash msg) /\
      AppNavigationV2.handleNavigation msg w =
        (w', Returned (Some (patch, procedure))) /\
      AppNavigationState.appPages patch = present [] /\
      AppNavigationState.navPageSections patch = present navPageSections /\
      (forall k : string,
         JsMap.get navPageSections k =
         last_write k (Navigation.sections msg)) /\
      forall w0 : World,
        procedure w0 =
        (after_calls w0
           [sendMessageToHost
              (SET_APP_PAGES (sectionPages (Navigation.sections msg)));
            sendMessageToHost
              (SET_CURRENT_PAGE_NAME
                 (if truthy (IAppPage.isDefault currentPage)
                  then Some ""
                  else IAppPage.pageName currentPage)
                 (IAppPage.pageScriptHash currentPage))],
         Returned tt).
Proof.
  intros msg w Hhas. apply message_has_page_iff in Hhas.
  destruct (has_page_find _ _ Hhas) as [cur Hfind].
  destruct (find_hash_some _ _ _ Hfind) as [_ Hhash].
  destruct (V2_handleNavigation_found msg cur w Hfind)
    as [procedure [Hrun Hproc]].
  rewrite flattenAppPages_sectionPages in Hfind.
  exists cur. do 3 eexists.
  exists (AppNavigationV2.buildNavPageSections (Navigation.sections msg)).
  split; [exact Hfind|]. split; [exact Hhash|].
  split; [exact Hrun|]. split; [reflexivity|]. split; [reflexivity|].
  split.
  - intros k.
    change (AppNavigationV2.buildNavPageSections (Navigation.sections msg))
      with (fold_left setSection (Navigation.sections msg) JsMap.empty).
    rewrite fold_sections_get.
    destruct (last_write k (Navigation.sections msg)); reflexivity.
  - intros w0. rewrite Hhash, <- flattenAppPages_sectionPages.
    exact (Hproc w0).
Qed.

Lemma V2_handleNavigation_patch_and_messages_witness :
  exists (currentPage : IAppPage.t) (w' : World)
         (patch : AppNavigationState.partial) (procedure : Procedure)
         (navPageSections : JsMap.t (option (list IAppPage.t))),
    find (fun p => strict_eq (IAppPage.pageScriptHash p) "a1")
         [Sample.p1; Sample.p2; Sample.p3] = Some currentPage /\
    IAppPage.pageScriptHash currentPage = Some "a1" /\
    AppNavigationV2.handleNavigation (Sample.navigation "a1") Sample.fresh =
      (w', Returned (Some (patch, procedure))) /\
    AppNavigationState.appPages patch = present [] /\
    AppNavigationState.navPageSections patch = present navPageSections /\
    (forall k : string,
       JsMap.get navPageSections k =
       last_write k (Sample.sections Sample.p1 Sample.p2 Sample.p3)) /\
    forall w0 : World,
      procedure w0 =
      (after_calls w0
         [sendMessageToHost (SET_APP_PAGES [Sample.p1; Sample.p2; Sample.p3]);
          sendMessageToHost
            (SET_CURRENT_PAGE_NAME
               (if truthy (IAppPage.isDefault currentPage)
                then Some ""
                else IAppPage.pageName currentPage)
               (IAppPage.pageScriptHash currentPage))],
       Returned tt).
Proof.
  apply (V2_handleNavigation_patch_and_messages (Sample.navigation "a1")
                                                Sample.fresh).
  exists (INavigationSection.mk (Some "A") (Some [Sample.p1; Sample.p2])),
    [Sample.p1; Sample.p2], Sample.p1.
  cbn. auto.
Defined.

(** C5. [AppNavigationV2.handleNavigation] on a message one of whose sections
    lists a page with the message's hash returns, and then: under every key
    [navPageSections] holds the page list of the last section of the message
    whose header (the empty string when the header is absent) is that key,
    and nothing under any other key; its keys are the headers of the
    sections in message order, each where it first occurs; the list sent in
    [SET_APP_PAGES] is the page lists of the sections one after the other in
    message order. For the sections [{header:"A", appPages:[p1,p2]},
    {header:"", appPages:[p3]}] the map is exactly "A" to [p1,p2] followed
    by "" to [p3], and the list is [p1,p2,p3]. *)
Theorem V2_handleNavigation_sections :
  forall (msg : Navigation.t) (w : World),
    message_has_page msg ->
    exists (w' : World) (patch : AppNavigationState.partial)
           (procedure : Procedure)
           (navPageSections : JsMap.t (option (list IAppPage.t)))
           (appPages : list IAppPage.t),
      AppNavigationV2.handleNavigation msg w =
        (w', Returned (Some (patch, procedure))) /\
      AppNavigationState.navPageSections patch = present navPageSections /\
      (forall w0 : World,
         exists (name hash : option string),
           procedure w0 =
           (after_calls w0
              [sendMessageToHost (SET_APP_PAGES appPages);
               sendMessageToHost (SET_CURRENT_PAGE_NAME name hash)],
            Returned tt)) /\
      (forall k : string,
         JsMap.get navPageSections k =
         last_write k (Navigation.sections msg)) /\
      JsMap.keys navPageSections = first_keys [] (Navigation.sections msg) /\
      appPages =
        concat (map (fun s => INavigationSection.appPages s ?? [])
                    (Navigation.sections msg)) /\
      (forall p1 p2 p3 : IAppPage.t,
         Navigation.sections msg = Sample.sections p1 p2 p3 ->
         navPageSections = [("A", Some [p1; p2]); ("", Some [p3])] /\
         appPages = [p1; p2; p3]).
Proof.
  intros msg w Hhas. apply message_has_page_iff in Hhas.
  destruct (has_page_find _ _ Hhas) as [cur Hfind].
  destruct (V2_handleNavigation_found msg cur w Hfind)
    as [procedure [Hrun Hproc]].
  do 3 eexists.
  exists (AppNavigationV2.buildNavPageSections (Navigation.sections msg)).
  exists (AppNavigationV2.flattenAppPages (Navigation.sections msg)).
  split; [exact Hrun|]. split; [reflexivity|].
  split; [intros w0; do 2 eexists; exact (Hproc w0)|].
  change (AppNavigationV2.buildNavPageSections (Navigation.sections msg))
    with (fold_left setSection (Navigation.sections msg) JsMap.empty).
  split; [|split; [|split]].
  - intros k. rewrite fold_sections_get.
    destruct (last_write k (Navigation.sections msg)); reflexivity.
  - now rewrite fold_sections_keys.
  - unfold AppNavigationV2.flattenAppPages. apply flat_map_concat_map.
  - intros p1 p2 p3 Hs. unfold AppNavigationV2.flattenAppPages.
    rewrite Hs. split; reflexivity.
Qed.

Lemma V2_handleNavigation_sections_witness :
  exists (w' : World) (patch : AppNavigationState.partial)
         (procedure : Procedure)
         (navPageSections : JsMap.t (option (list IAppPage.t)))
         (appPages : list IAppPage.t),
    AppNavigationV2.handleNavigation (Sample.navigation "a3") Sample.fresh =
      (w', Returned (Some (patch, procedure))) /\
    AppNavigationState.navPageSections patch = present navPageSections /\
    (forall w0 : World,
       exists (name hash : option string),
         procedure w0 =
         (after_calls w0
            [sendMessageToHost (SET_APP_PAGES appPages);
             sendMessageToHost (SET_CURRENT_PAGE_NAME name hash)],
          Returned tt)) /\
    (forall k : string,
       JsMap.get navPageSections k =
       last_write k (Sample.sections Sample.p1 Sample.p2 Sample.p3)) /\
    JsMap.keys navPageSections = ["A"; ""] /\
    appPages = [Sample.p1; Sample.p2; Sample.p3] /\
    (forall p1 p2 p3 : IAppPage.t,
       Sample.sections Sample.p1 Sample.p2 Sample.p3 =
       Sample.sections p1 p2 p3 ->
       navPageSections = [("A", Some [p1; p2]); ("", Some [p3])] /\
       appPages = [p1; p2; p3]).
Proof.
  apply (V2_handleNavigation_sections (Sample.navigation "a3") Sample.fresh).
  exists (INavigationSection.mk (Some "") (Some [Sample.p3])),
    [Sample.p3], Sample.p3.
  cbn. auto.
Defined.

(** C8. [AppNavigationV2.handleNavigation] returns an update whenever some
    section of the message lists a page with the message's hash. When no
    section does, the handler throws the [TypeError] of reading a property
    of the page it did not find, having made no outward call and built no
    result; the dispatcher lets the error through. *)
Theorem V2_handleNavigation_lookup :
  forall (msg : Navigation.t) (w : World),
    (message_has_page msg ->
     exists (w' : World) (patch : AppNavigationState.partial)
            (procedure : Procedure),
       AppNavigationV2.handleNavigation msg w =
         (w', Returned (Some (patch, procedure)))) /\
    (~ message_has_page msg ->
     AppNavigationV2.handleNavigation msg w = (w, Thrown TypeError) /\
     AppNavigation.handleNavigation msg w = (with_V2 w, Thrown TypeError)).
Proof.
  intros msg w. split.
  - intros Hhas. apply message_has_page_iff in Hhas.
    destruct (has_page_find _ _ Hhas) as [cur Hfind].
    destruct (V2_handleNavigation_found msg cur w Hfind)
      as [procedure [Hrun _]].
    do 3 eexists. exact Hrun.
  - intros Hno.
    destruct (find (fun p => strict_eq (IAppPage.pageScriptHash p)
                                       (Navigation.pageScriptHash msg))
                   (AppNavigationV2.flattenAppPages (Navigation.sections msg)))
      as [cur|] eqn:Hfind.
    + exfalso. apply Hno. apply message_has_page_iff. exists cur.
      exact (find_hash_some _ _ _ Hfind).
    + split.
      * exact (V2_handleNavigation_not_found msg w Hfind).
      * rewrite AppNavigation_handleNavigation_forward.
        exact (V2_handleNavigation_not_found msg (with_V2 w) Hfind).
Qed.

Lemma V2_handleNavigation_lookup_witness :
  (exists (w' : World) (patch : AppNavigationState.partial)
          (procedure : Procedure),
     AppNavigationV2.handleNavigation (Sample.navigation "a2") Sample.fresh =
       (w', Returned (Some (patch, procedure)))) /\
  (AppNavigationV2.handleNavigation (Sample.navigation "zz") Sample.fresh =
     (Sample.fresh, Thrown TypeError) /\
   AppNavigation.handleNavigation (Sample.navigation "zz") Sample.fresh =
     (with_V2 Sample.fresh, Thrown TypeError)).
Proof.
  split.
  - apply (proj1 (V2_handleNavigation_lookup (Sample.navigation "a2")
                                             Sample.fresh)).
    exists (INavigationSection.mk (Some "A") (Some [Sample.p1; Sample.p2])),
      [Sample.p1; Sample.p2], Sample.p2.
    cbn. repeat split; auto.
  - apply (proj2 (V2_handleNavigation_lookup (Sample.navigation "zz")
                                             Sample.fresh)).
    intros [section [pages [page [Hs [E [Hp Hh]]]]]]. cbn in Hs.
    destruct Hs as [<-|[<-|[]]]; injection E as <-; cbn in Hp;
      repeat (destruct Hp as [<-|Hp]; [discriminate Hh|]); exact Hp.
Defined.

(** C6. [AppNavigationV1.handleNewSession] on the session with the pages
    Home (hash h1) and About (hash h2), current hash h2 and no
    [hideSidebarNav] in its configuration: it returns the patch
    [{hideSidebarNav: false, appPages: [Home, About],
    currentPageScriptHash: "h2"}], calls [onUpdatePageUrl("Home", "About",
    false)] and then enqueues the metric, and leaves the document title
    "About", middle dot, "Streamlit". *)
Theorem V1_handleNewSession_scenario :
  forall (this : Ref) (w : World) (config : option IConfig.t),
    no_hideSidebarNav config ->
    exists (w' : World) (procedure : Procedure),
      AppNavigationV1.handleNewSession this (Sample.session config) w =
        (w', Returned (Some
           (AppNavigationState.mk (present false)
                                  (present [Sample.home; Sample.about])
                                  (present (Some "h2"))
                                  absent,
            procedure))) /\
      calls w' = (calls w ++
                  [onUpdatePageUrl "Home" (Some "About") false;
                   metricsEnqueue "updateReport" 2 (Some false)])%list /\
      title w' = "About · Streamlit" /\
      heap w' this =
        V1Fields.mk [Sample.home; Sample.about] (Some "h2") (Some false).
Proof.
  intros this w config [-> | ->];
    unfold AppNavigationV1.handleNewSession, Sample.session; run; cbn;
    do 2 eexists; (split; [reflexivity|]); cbn;
    rewrite Nat.eqb_refl, <- app_assoc; auto.
Qed.

Lemma V1_handleNewSession_scenario_witness :
  exists (w' : World) (procedure : Procedure),
    AppNavigationV1.handleNewSession 0 (Sample.session None)
                                     (with_new_V1 Sample.fresh) =
      (w', Returned (Some
         (AppNavigationState.mk (present false)
                                (present [Sample.home; Sample.about])
                                (present (Some "h2"))
                                absent,
          procedure))) /\
    calls w' = (calls (with_new_V1 Sample.fresh) ++
                [onUpdatePageUrl "Home" (Some "About") false;
                 metricsEnqueue "updateReport" 2 (Some false)])%list /\
    title w' = "About · Streamlit" /\
    heap w' 0 = V1Fields.mk [Sample.home; Sample.about] (Some "h2") (Some false).
Proof.
  apply (V1_handleNewSession_scenario 0 (with_new_V1 Sample.fresh) None).
  left. reflexivity.
Defined.

(** What [AppNavigationV1.handlePageNotFound] does, for any stored page
    list. *)
Lemma V1_handlePageNotFound_run (this : Ref) (msg : PageNotFound.t)
      (w : World) :
  exists procedure : Procedure,
    AppNavigationV1.handlePageNotFound this msg w =
      (after_calls w [onPageNotFound (PageNotFound.pageName msg)],
       Returned (Some
         (AppNavigationState.mk
            absent absent
            (present (Some (fallbackHash (V1Fields.appPages (heap w this)))))
            absent,
          procedure))) /\
    forall w0 : World,
      procedure w0 =
      (after_calls w0
         [sendMessageToHost
            (SET_CURRENT_PAGE_NAME
               (Some "")
               (Some (fallbackHash (V1Fields.appPages (heap w this)))))],
       Returned tt).
Proof.
  unfold AppNavigationV1.handlePageNotFound. run. cbn [heap].
  eexists. split.
  - reflexivity.
  - intros w0. reflexivity.
Qed.

(** C7. [AppNavigationV1.handlePageNotFound]: when the handler returns,
    [onPageNotFound(msg.pageName)] has been called and nothing else; the
    patch sets [currentPageScriptHash] alone, to the hash of the first
    stored page, or to the empty string when no page is stored; the
    procedure makes one call, sending [SET_CURRENT_PAGE_NAME] with an empty
    name and that same hash. *)
Theorem V1_handlePageNotFound_fallback :
  forall (this : Ref) (msg : PageNotFound.t) (w : World),
    exists (fallback : string) (procedure : Procedure),
      AppNavigationV1.handlePageNotFound this msg w =
        (after_calls w [onPageNotFound (PageNotFound.pageName msg)],
         Returned (Some
           (AppNavigationState.mk absent absent (present (Some fallback))
                                  absent,
            procedure))) /\
      (V1Fields.appPages (heap w this) = [] -> fallback = "") /\
      (forall (page : IAppPage.t) (rest : list IAppPage.t) (hash : string),
         V1Fields.appPages (heap w this) = page :: rest ->
         IAppPage.pageScriptHash page = Some hash ->
         fallback = hash) /\
      forall w0 : World,
        procedure w0 =
        (after_calls w0
           [sendMessageToHost
              (SET_CURRENT_PAGE_NAME (Some "") (Some fallback))],
         Returned tt).
Proof.
  intros this msg w.
  destruct (V1_handlePageNotFound_run this msg w) as [procedure [Hrun Hproc]].
  exists (fallbackHash (V1Fields.appPages (heap w this))), procedure.
  split; [exact Hrun|]. split; [|split; [|exact Hproc]].
  - intros ->. reflexivity.
  - intros page rest hash -> Hhash. unfold fallbackHash.
    now rewrite Hhash.
Qed.

Lemma V1_handlePageNotFound_fallback_witness :
  (exists (fallback : string) (procedure : Procedure),
     AppNavigationV1.handlePageNotFound 0 Sample.pageNotFound Sample.legacy =
       (after_calls Sample.legacy [onPageNotFound "missing"],
        Returned (Some
          (AppNavigationState.mk absent absent (present (Some fallback))
                                 absent,
           procedure))) /\
     fallback = "h1") /\
  (exists (fallback : string) (procedure : Procedure),
     AppNavigationV1.handlePageNotFound 0 Sample.pageNotFound
                                        (with_new_V1 Sample.fresh) =
       (after_calls (with_new_V1 Sample.fresh) [onPageNotFound "missing"],
        Returned (Some
          (AppNavigationState.mk absent absent (present (Some fallback))
                                 absent,
           procedure))) /\
     fallback = "").
Proof.
  split.
  - destruct (V1_handlePageNotFound_fallback 0 Sample.pageNotFound
                                             Sample.legacy)
      as [fallback [procedure [Hrun [_ [Hfirst _]]]]].
    exists fallback, procedure. split; [exact Hrun|].
    apply (Hfirst Sample.home [Sample.about]); reflexivity.
  - destruct (V1_handlePageNotFound_fallback 0 Sample.pageNotFound
                                             (with_new_V1 Sample.fresh))
      as [fallback [procedure [Hrun [Hempty _]]]].
    exists fallback, procedure. split; [exact Hrun|].
    apply Hempty. reflexivity.
Defined.

(** C9. The legacy strategy's [handlePagesChanged] and [handlePageNotFound]
    leave the fields of every strategy object as they were, and so do the
    procedures they hand back; [handleNewSession] assigns the three fields
    from the message. So after [handleNewSession], [handlePagesChanged] and
    [handlePageNotFound] in that order, the fallback hash of the last one is
    taken from the first page of the [NewSession] message, whatever pages
    the [PagesChanged] message carried. *)
Theorem V1_only_handleNewSession_assigns :
  forall (this : Ref) (session : NewSession.t) (changed : PagesChanged.t)
         (notFound : PageNotFound.t) (w : World),
    heap (fst (AppNavigationV1.handlePagesChanged this changed w)) = heap w /\
    heap (fst (AppNavigationV1.handlePageNotFound this notFound w)) = heap w /\
    heap (process (EvPagesChanged changed) true w) = heap w /\
    heap (process (EvPageNotFound notFound) true w) = heap w /\
    heap (fst (AppNavigationV1.handleNewSession this session w)) this =
      V1Fields.mk (NewSession.appPages session)
                  (Some (NewSession.pageScriptHash session))
                  (Some (match NewSession.config session with
                         | Some config => IConfig.hideSidebarNav config
                         | None => None
                         end ?? false)) /\
    exists procedure : Procedure,
      let w1 := fst (AppNavigationV1.handleNewSession this session w) in
      let w2 := fst (AppNavigationV1.handlePagesChanged this changed w1) in
      AppNavigationV1.handlePageNotFound this notFound w2 =
        (after_calls w2 [onPageNotFound (PageNotFound.pageName notFound)],
         Returned (Some
           (AppNavigationState.mk
              absent absent
              (present (Some (fallbackHash (NewSession.appPages session))))
              absent,
            procedure))).
Proof.
  intros this session changed notFound w.
  assert (Hnew :
    heap (fst (AppNavigationV1.handleNewSession this session w)) this =
    V1Fields.mk (NewSession.appPages session)
                (Some (NewSession.pageScriptHash session))
                (Some (match NewSession.config session with
                       | Some config => IConfig.hideSidebarNav config
                       | None => None
                       end ?? false))).
  { unfold AppNavigationV1.handleNewSession. run.
    destruct (NewSession.appPages session); cbn; now rewrite Nat.eqb_refl. }
  split; [reflexivity|]. split; [reflexivity|].
  split; [|split; [|split; [exact Hnew|]]].
  - unfold process, handle, AppNavigation.handlePagesChanged. run.
    destruct (versionManager w) as [[r|]|]; reflexivity.
  - unfold process, handle, AppNavigation.handlePageNotFound. run.
    destruct (versionManager w) as [[r|]|]; reflexivity.
  - cbv zeta.
    destruct (V1_handlePageNotFound_run this notFound
                (fst (AppNavigationV1.handlePagesChanged this changed
                        (fst (AppNavigationV1.handleNewSession
                                this session w)))))
      as [procedure [Hrun _]].
    exists procedure. rewrite Hrun.
    change (heap (fst (AppNavigationV1.handlePagesChanged this changed
                         (fst (AppNavigationV1.handleNewSession
                                 this session w)))))
      with (heap (fst (AppNavigationV1.handleNewSession this session w))).
    rewrite Hnew. reflexivity.
Qed.

(** C10. [AppNavigation.handleNewSession] with no active strategy: a message
    with no page at all, like one with a single page, returns nothing and
    changes nothing; a legacy strategy is created exactly when the message
    has more than one page. *)
Theorem handleNewSession_without_pages :
  forall (msg : NewSession.t) (w : World),
    versionManager w = None ->
    (NewSession.appPages msg = [] ->
     AppNavigation.handleNewSession msg w = (w, Returned None)) /\
    (length (NewSession.appPages msg) <= 1 ->
     AppNavigation.handleNewSession msg w = (w, Returned None)) /\
    (1 < length (NewSession.appPages msg) <->
     active (fst (AppNavigation.handleNewSession msg w)) = Legacy).
Proof.
  intros msg w Hvm.
  assert (Hsmall : length (NewSession.appPages msg) <= 1 ->
                   AppNavigation.handleNewSession msg w = (w, Returned None)).
  { intros Hlen. unfold AppNavigation.handleNewSession. run.
    destruct (Nat.ltb_spec 1 (length (NewSession.appPages msg))) as [Hlt|_];
      [lia|].
    cbn. now rewrite Hvm. }
  split; [|split; [exact Hsmall|split]].
  - intros Hnil. apply Hsmall. rewrite Hnil. cbn. lia.
  - intros Hlt. unfold AppNavigation.handleNewSession, active. run.
    apply Nat.ltb_lt in Hlt. rewrite Hvm, Hlt. cbn [andb versionManager].
    now rewrite V1_handleNewSession_versionManager.
  - intros Hact.
    destruct (Nat.le_gt_cases (length (NewSession.appPages msg)) 1)
      as [Hle|Hgt]; [|exact Hgt].
    rewrite (Hsmall Hle) in Hact. unfold active in Hact. cbn in Hact.
    rewrite Hvm in Hact. discriminate.
Qed.

Lemma handleNewSession_without_pages_witness :
  AppNavigation.handleNewSession Sample.emptySession Sample.fresh =
    (Sample.fresh, Returned None).
Proof.
  apply (proj1 (handleNewSession_without_pages Sample.emptySession
                                               Sample.fresh eq_refl)).
  reflexivity.
Defined.

(** * Further properties of the dispatcher and its strategies *)

(** ** The handlers, case by case *)

Lemma V1_handleNewSession_empty (this : Ref) (msg : NewSession.t) (w : World) :
  NewSession.appPages msg = [] ->
  AppNavigationV1.handleNewSession this msg w =
  (with_fields w this (fieldsOf msg), Thrown TypeError).
Proof.
  intros Hnil. unfold AppNavigationV1.handleNewSession, with_fields, fieldsOf.
  run. rewrite Hnil. reflexivity.
Qed.

Lemma V1_handleNewSession_cons (this : Ref) (msg : NewSession.t) (w : World)
      (mainPage : IAppPage.t) (rest : list IAppPage.t) :
  NewSession.appPages msg = mainPage :: rest ->
  exists procedure : Procedure,
    AppNavigationV1.handleNewSession this msg w =
    (after_calls
       (with_title (with_fields w this (fieldsOf msg))
                   (newPageNameOf msg ++ middot_Streamlit))
       [onUpdatePageUrl (IAppPage.pageName mainPage ?? "")
                        (Some (newPageNameOf msg))
                        (strict_eq (IAppPage.pageScriptHash mainPage)
                                   (NewSession.pageScriptHash msg));
        metricsEnqueue "updateReport" (length (NewSession.appPages msg))
                       (Some (strict_eq (IAppPage.pageScriptHash mainPage)
                                        (NewSession.pageScriptHash msg)))],
     Returned (Some
       (AppNavigationState.mk
          (present (match NewSession.config msg with
                    | Some config => IConfig.hideSidebarNav config
                    | None => None
                    end ?? false))
          (present (NewSession.appPages msg))
          (present (Some (NewSession.pageScriptHash msg)))
          absent,
        procedure))) /\
    forall w0 : World,
      procedure w0 =
      (after_calls w0
         [sendMessageToHost
            (SET_APP_PAGES (V1Fields.appPages (heap w0 this)));
          sendMessageToHost
            (SET_CURRENT_PAGE_NAME
               (Some (if strict_eq (IAppPage.pageScriptHash mainPage)
                                   (NewSession.pageScriptHash msg)
                      then ""
                      else newPageNameOf msg))
               (V1Fields.currentPageScriptHash (heap w0 this)))],
       Returned tt).
Proof.
  intros Hcons.
  unfold AppNavigationV1.handleNewSession, with_fields, with_title,
    after_calls, fieldsOf, newPageNameOf.
  run. rewrite Hcons. eexists. split.
  - cbn [heap next versionManager title calls].
    rewrite <- app_assoc. reflexivity.
  - intros w0. cbn [heap next versionManager title calls].
    rewrite <- app_assoc. reflexivity.
Qed.

Lemma AppNavigation_handleNewSession_create (msg : NewSession.t) (w : World) :
  versionManager w = None ->
  1 < length (NewSession.appPages msg) ->
  AppNavigation.handleNewSession msg w =
  AppNavigationV1.handleNewSession (next w) msg (with_new_V1 w).
Proof.
  intros Hvm Hlen. apply Nat.ltb_lt in Hlen.
  unfold AppNavigation.handleNewSession. run. rewrite Hvm, Hlen. reflexivity.
Qed.

Lemma AppNavigation_handleNewSession_idle (msg : NewSession.t) (w : World) :
  versionManager w = None ->
  length (NewSession.appPages msg) <= 1 ->
  AppNavigation.handleNewSession msg w = (w, Returned None).
Proof.
  intros Hvm Hlen. unfold AppNavigation.handleNewSession. run.
  destruct (Nat.ltb_spec 1 (length (NewSession.appPages msg))) as [Hlt|_];
    [lia|].
  cbn. now rewrite Hvm.
Qed.

Lemma AppNavigation_handleNewSession_V1 (msg : NewSession.t) (w : World)
      (this : Ref) :
  versionManager w = Some (V1 this) ->
  AppNavigation.handleNewSession msg w =
  AppNavigationV1.handleNewSession this msg w.
Proof.
  intros Hvm. unfold AppNavigation.handleNewSession. run.
  rewrite Hvm, andb_false_r. cbn. now rewrite Hvm.
Qed.

Lemma AppNavigation_handleNewSession_V2 (msg : NewSession.t) (w : World) :
  versionManager w = Some V2 ->
  AppNavigation.handleNewSession msg w =
  (with_title w middot_Streamlit, Returned None).
Proof.
  intros Hvm. unfold AppNavigation.handleNewSession. run.
  rewrite Hvm, andb_false_r. cbn. now rewrite Hvm.
Qed.

(** ** What one event can change *)

Ltac crush_event w :=
  unfold_handlers; run;
  let Hvm := fresh "Hvm" in
  destruct (versionManager w) as [[?this|]|] eqn:Hvm;
  rewrite ?andb_false_r, ?andb_true_r; cbn [andb];
  repeat match goal with
    | |- context [match ?l with [] => _ | _ :: _ => _ end] => destruct l eqn:?
    | |- context [Nat.ltb ?a ?b] => destruct (Nat.ltb a b) eqn:?
    | |- context [find ?f ?l] => destruct (find f l) eqn:?
    | |- context [if ?b then _ else _] => is_var b; destruct b
    end;
  cbn; rewrite ?Hvm; cbn.

(** After one event the outward calls made before are still there, in
    front of the new ones. *)
Lemma process_calls (e : Event) (b : bool) (w : World) :
  exists cs : list Call, calls (process e b w) = (calls w ++ cs)%list.
Proof.
  unfold process. destruct e as [msg|msg|msg|msg]; crush_event w;
    rewrite <- ?app_assoc;
    solve [ eexists; reflexivity
          | exists []; now rewrite app_nil_r ].
Qed.

(** An event that is not a [NewSession] leaves the strategy objects and the
    document title alone. *)
Lemma process_frame (e : Event) (b : bool) (w : World) :
  is_newSession e = false ->
  heap (process e b w) = heap w /\
  next (process e b w) = next w /\
  title (process e b w) = title w.
Proof.
  unfold process. destruct e as [msg|msg|msg|msg]; cbn [is_newSession];
    intros Hns; try discriminate Hns; crush_event w; auto.
Qed.

(** The strategy after one event: the one before; or, from none, a legacy
    strategy that has just been allocated; or, on [Navigation], the sectioned
    one. Nothing else allocates. *)
Lemma process_versionManager (e : Event) (b : bool) (w : World) :
  (versionManager (process e b w) = versionManager w /\
   next (process e b w) = next w) \/
  (versionManager w = None /\ commits e = true /\ is_navigation e = false /\
   versionManager (process e b w) = Some (V1 (next w)) /\
   next (process e b w) = S (next w)) \/
  (is_navigation e = true /\
   versionManager (process e b w) = Some V2 /\
   next (process e b w) = next w).
Proof.
  unfold process, commits, is_navigation.
  destruct e as [msg|msg|msg|msg]; crush_event w; auto 10.
Qed.

(** ** Extras *)

(** X1. A dispatcher creates at most one legacy strategy object in its life:
    over any sequence of events at most one object is allocated, none at all
    once a strategy is active, and a legacy strategy that is active stays
    the same object until the sectioned one replaces it. *)
Theorem legacy_created_at_most_once :
  forall (es : list (Event * bool)) (w : World),
    next (processAll es w) <= S (next w) /\
    (versionManager w <> None -> next (processAll es w) = next w) /\
    (forall this : Ref,
       versionManager w = Some (V1 this) ->
       versionManager (processAll es w) = Some (V1 this) \/
       versionManager (processAll es w) = Some V2).
Proof.
  induction es as [|[e b] es IH]; intros w; cbn [processAll].
  - split; [lia|]. split; [reflexivity|]. intros this Hvm. now left.
  - destruct (IH (process e b w)) as [IHle [IHsame IHobj]].
    destruct (process_versionManager e b w)
      as [[Hvm Hnx]|[[Hnone [_ [_ [Hvm Hnx]]]]|[_ [Hvm Hnx]]]].
    + split; [lia|]. split.
      * intros Hw. rewrite <- Hnx. apply IHsame. now rewrite Hvm.
      * intros this Hw. apply IHobj. now rewrite Hvm.
    + split; [|split].
      * rewrite <- Hnx. apply Nat.eq_le_incl, IHsame. now rewrite Hvm.
      * intros Hw. contradiction.
      * intros this Hw. congruence.
    + assert (Hkeep : versionManager (processAll es (process e b w)) = Some V2).
      { clear - Hvm. revert Hvm. generalize (process e b w) as w0.
        induction es as [|[e' b'] es IH']; intros w0 Hvm; cbn [processAll].
        - exact Hvm.
        - apply IH'.
          destruct (process_versionManager e' b' w0)
            as [[H _]|[[H _]|[_ [H _]]]]; congruence. }
      split; [|split].
      * rewrite IHsame; [lia|]. now rewrite Hvm.
      * intros _. rewrite <- Hnx. apply IHsame. now rewrite Hvm.
      * intros this _. now right.
Qed.

Lemma legacy_created_at_most_once_witness :
  next (processAll [(EvNewSession Sample.emptySession, true);
                    (EvNewSession (Sample.session None), false);
                    (EvNavigation (Sample.navigation "a1"), true)]
                   Sample.legacy) = 1 /\
  (versionManager
     (processAll [(EvNewSession Sample.emptySession, true);
                  (EvNewSession (Sample.session None), false)]
                 Sample.legacy) = Some (V1 0) \/
   versionManager
     (processAll [(EvNewSession Sample.emptySession, true);
                  (EvNewSession (Sample.session None), false)]
                 Sample.legacy) = Some V2).
Proof.
  split.
  - apply (proj1 (proj2 (legacy_created_at_most_once _ Sample.legacy))).
    discriminate.
  - apply (proj2 (proj2 (legacy_created_at_most_once _ Sample.legacy))).
    reflexivity.
Defined.

Lemma handle_uncommitted (e : Event) (w : World) :
  versionManager w = None ->
  commits e = false ->
  handle e w = (w, Returned None).
Proof.
  intros Hvm Hc. destruct e as [msg|msg|msg|msg]; cbn [commits] in Hc;
    try discriminate Hc.
  - apply AppNavigation_handleNewSession_idle; [exact Hvm|].
    apply Nat.ltb_ge in Hc. exact Hc.
  - cbn [handle]. unfold AppNavigation.handlePagesChanged. run.
    now rewrite Hvm.
  - cbn [handle]. unfold AppNavigation.handlePageNotFound. run.
    now rewrite Hvm.
Qed.

(** X2. A dispatcher without a strategy stays exactly as it is, and every
    handler returns nothing, as long as no session with more than one page
    and no navigation arrives: no callback is called, no metric enqueued,
    no message sent, the document title is not touched. *)
Theorem uncommitted_dispatcher_is_inert :
  forall (es : list (Event * bool)) (w : World),
    versionManager w = None ->
    Forall (fun eb => commits (fst eb) = false) es ->
    processAll es w = w /\
    Forall (fun r => r = Returned None) (outcomes es w).
Proof.
  induction es as [|[e b] es IH]; intros w Hvm Hall; cbn [processAll outcomes].
  - split; [reflexivity|constructor].
  - inversion Hall as [|eb es' He Hes]; subst. cbn [fst] in He.
    pose proof (handle_uncommitted e w Hvm He) as Hh.
    assert (Hp : process e b w = w) by (unfold process; now rewrite Hh).
    rewrite Hp. destruct (IH w Hvm Hes) as [IHw IHr].
    split; [exact IHw|]. constructor; [now rewrite Hh|exact IHr].
Qed.

Lemma uncommitted_dispatcher_is_inert_witness :
  processAll [(EvPageNotFound Sample.pageNotFound, true);
              (EvNewSession Sample.onePageSession, true);
              (EvPagesChanged Sample.pagesChanged, true);
              (EvNewSession Sample.emptySession, true)]
             Sample.fresh = Sample.fresh /\
  Forall (fun r => r = Returned None)
         (outcomes [(EvPageNotFound Sample.pageNotFound, true);
                    (EvNewSession Sample.onePageSession, true);
                    (EvPagesChanged Sample.pagesChanged, true);
                    (EvNewSession Sample.emptySession, true)]
                   Sample.fresh).
Proof.
  apply (uncommitted_dispatcher_is_inert _ Sample.fresh).
  - reflexivity.
  - repeat constructor.
Defined.

Lemma handle_sectioned (e : Event) (w : World) :
  versionManager w = Some V2 ->
  is_navigation e = false ->
  handle e w =
  (if is_newSession e then with_title w middot_Streamlit else w,
   Returned None).
Proof.
  intros Hvm Hn. destruct e as [msg|msg|msg|msg]; cbn in Hn;
    try discriminate Hn; cbn [handle is_newSession].
  - now apply AppNavigation_handleNewSession_V2.
  - unfold AppNavigation.handlePagesChanged. run. now rewrite Hvm.
  - unfold AppNavigation.handlePageNotFound. run. now rewrite Hvm.
Qed.

(** X3. Once the sectioned strategy is active, sessions, page changes and pages
    not found are answered with nothing: no state update, no outward call
    (so [onPageNotFound] is never called and the host hears nothing), no
    change to any strategy object. A [NewSession] still resets the document
    title to the bare suffix. *)
Theorem sectioned_ignores_other_events :
  forall (es : list (Event * bool)) (w : World),
    versionManager w = Some V2 ->
    Forall (fun eb => is_navigation (fst eb) = false) es ->
    processAll es w =
      (if existsb (fun eb => is_newSession (fst eb)) es
       then with_title w middot_Streamlit
       else w) /\
    calls (processAll es w) = calls w /\
    Forall (fun r => r = Returned None) (outcomes es w).
Proof.
  assert (Hgen : forall (es : list (Event * bool)) (w : World),
    versionManager w = Some V2 ->
    Forall (fun eb => is_navigation (fst eb) = false) es ->
    processAll es w =
      (if existsb (fun eb => is_newSession (fst eb)) es
       then with_title w middot_Streamlit
       else w) /\
    Forall (fun r => r = Returned None) (outcomes es w)).
  { induction es as [|[e b] es IH]; intros w Hvm Hall;
      cbn [processAll outcomes existsb fst].
    - split; [reflexivity|constructor].
    - inversion Hall as [|eb es' He Hes]; subst. cbn [fst] in He.
      pose proof (handle_sectioned e w Hvm He) as Hh.
      assert (Hp : process e b w =
                   if is_newSession e then with_title w middot_Streamlit
                   else w) by (unfold process; now rewrite Hh).
      rewrite Hp, Hh. cbn [snd].
      destruct (is_newSession e); cbn [orb].
      + destruct (IH (with_title w middot_Streamlit) Hvm Hes) as [IHw IHr].
        split; [|constructor; [reflexivity|exact IHr]].
        rewrite IHw.
        destruct (existsb (fun eb => is_newSession (fst eb)) es); reflexivity.
      + destruct (IH w Hvm Hes) as [IHw IHr].
        split; [exact IHw|constructor; [reflexivity|exact IHr]]. }
  intros es w Hvm Hall. destruct (Hgen es w Hvm Hall) as [Hw Hr].
  split; [exact Hw|]. split; [|exact Hr].
  rewrite Hw. destruct (existsb (fun eb => is_newSession (fst eb)) es);
    reflexivity.
Qed.

Lemma sectioned_ignores_other_events_witness :
  processAll [(EvPageNotFound Sample.pageNotFound, true);
              (EvNewSession (Sample.session None), true);
              (EvPagesChanged Sample.pagesChanged, true)]
             Sample.sectioned =
    with_title Sample.sectioned middot_Streamlit /\
  calls (processAll [(EvPageNotFound Sample.pageNotFound, true);
                     (EvNewSession (Sample.session None), true);
                     (EvPagesChanged Sample.pagesChanged, true)]
                    Sample.sectioned) = calls Sample.sectioned /\
  Forall (fun r => r = Returned None)
         (outcomes [(EvPageNotFound Sample.pageNotFound, true);
                    (EvNewSession (Sample.session None), true);
                    (EvPagesChanged Sample.pagesChanged, true)]
                   Sample.sectioned).
Proof.
  assert (Hall : Forall (fun eb => is_navigation (fst eb) = false)
                        [(EvPageNotFound Sample.pageNotFound, true);
                         (EvNewSession (Sample.session None), true);
                         (EvPagesChanged Sample.pagesChanged, true)])
    by (repeat constructor).
  exact (sectioned_ignores_other_events _ Sample.sectioned eq_refl Hall).
Defined.

Lemma length_cons_gt (msg : NewSession.t) :
  1 < length (NewSession.appPages msg) ->
  exists mainPage rest, NewSession.appPages msg = mainPage :: rest.
Proof.
  destruct (NewSession.appPages msg) as [|mainPage rest]; cbn; intros H.
  - lia.
  - now exists mainPage, rest.
Qed.

Lemma V1_handleNewSession_completion (this : Ref) (msg : NewSession.t)
      (w : World) :
  snd (AppNavigationV1.handleNewSession this msg w) = Thrown TypeError <->
  NewSession.appPages msg = [].
Proof.
  destruct (NewSession.appPages msg) as [|mainPage rest] eqn:Hpages.
  - rewrite (V1_handleNewSession_empty this msg w Hpages). cbn. tauto.
  - destruct (V1_handleNewSession_cons this msg w mainPage rest Hpages)
      as [procedure [Hrun _]].
    rewrite Hrun. cbn. split; intros H; discriminate H.
Qed.

(** X4. The handlers of the dispatcher throw in two situations only: a
    [Navigation] none of whose sections lists a page with the message's
    hash, and a
    [NewSession] without pages that reaches an active legacy strategy.
    [PagesChanged] and [PageNotFound] never throw. *)
Theorem handle_throws_exactly_when :
  forall (e : Event) (w : World),
    snd (handle e w) = Thrown TypeError <->
    (exists msg : Navigation.t,
       e = EvNavigation msg /\ ~ message_has_page msg)
    \/
    (exists (msg : NewSession.t) (this : Ref),
       e = EvNewSession msg /\
       NewSession.appPages msg = [] /\
       versionManager w = Some (V1 this)).
Proof.
  intros e w. destruct e as [msg|msg|msg|msg]; cbn [handle].
  - destruct (versionManager w) as [[this|]|] eqn:Hvm.
    + rewrite (AppNavigation_handleNewSession_V1 msg w this Hvm).
      rewrite V1_handleNewSession_completion. split.
      * intros Hnil. right. exists msg, this. auto.
      * intros [[m [He _]]|[m [t [He [Hnil _]]]]]; [discriminate He|].
        injection He as <-. exact Hnil.
    + rewrite (AppNavigation_handleNewSession_V2 msg w Hvm). cbn. split.
      * intros H. discriminate H.
      * intros [[m [He _]]|[m [t [_ [_ Ht]]]]]; discriminate.
    + split.
      * intros Hthrow. exfalso.
        destruct (Nat.le_gt_cases (length (NewSession.appPages msg)) 1)
          as [Hle|Hgt].
        -- rewrite (AppNavigation_handleNewSession_idle msg w Hvm Hle)
            in Hthrow. discriminate Hthrow.
        -- rewrite (AppNavigation_handleNewSession_create msg w Hvm Hgt)
            in Hthrow.
           apply V1_handleNewSession_completion in Hthrow.
           rewrite Hthrow in Hgt. cbn in Hgt. lia.
      * intros [[m [He _]]|[m [t [_ [_ Ht]]]]]; discriminate.
  - split.
    + unfold AppNavigation.handlePagesChanged,
        AppNavigationV1.handlePagesChanged,
        AppNavigationV2.handlePagesChanged. run.
      destruct (versionManager w) as [[this|]|]; intros H; discriminate H.
    + intros [[m [He _]]|[m [t [He _]]]]; discriminate He.
  - rewrite AppNavigation_handleNavigation_forward.
    destruct (find (fun p => strict_eq (IAppPage.pageScriptHash p)
                                       (Navigation.pageScriptHash msg))
                   (AppNavigationV2.flattenAppPages (Navigation.sections msg)))
      as [cur|] eqn:Hfind.
    + destruct (V2_handleNavigation_found msg cur (with_V2 w) Hfind)
        as [procedure [Hrun _]].
      rewrite Hrun. cbn. split.
      * intros H. discriminate H.
      * intros [[m [He Hno]]|[m [t [He _]]]]; [|discriminate He].
        injection He as <-. exfalso. apply Hno.
        apply message_has_page_iff. exists cur.
        exact (find_hash_some _ _ _ Hfind).
    + rewrite (V2_handleNavigation_not_found msg (with_V2 w) Hfind). cbn.
      split; [|reflexivity].
      intros _. left. exists msg. split; [reflexivity|].
      intros Hhas. apply message_has_page_iff in Hhas.
      exact (find_hash_none _ _ Hfind Hhas).
  - split.
    + unfold AppNavigation.handlePageNotFound,
        AppNavigationV1.handlePageNotFound,
        AppNavigationV2.handlePageNotFound. run.
      destruct (versionManager w) as [[this|]|]; intros H; discriminate H.
    + intros [[m [He _]]|[m [t [He _]]]]; discriminate He.
Qed.

Lemma handle_throws_exactly_when_witness :
  snd (handle (EvNewSession Sample.emptySession) Sample.legacy) =
    Thrown TypeError /\
  snd (handle (EvNavigation (Sample.navigation "zz")) Sample.legacy) =
    Thrown TypeError.
Proof.
  split.
  - apply (proj2 (handle_throws_exactly_when _ Sample.legacy)).
    right. exists Sample.emptySession, 0. auto.
  - apply (proj2 (handle_throws_exactly_when _ Sample.legacy)).
    left. exists (Sample.navigation "zz"). split; [reflexivity|].
    intros [section [pages [page [Hs [E [Hp Hh]]]]]]. cbn in Hs.
    destruct Hs as [<-|[<-|[]]]; injection E as <-; cbn in Hp;
      repeat (destruct Hp as [<-|Hp]; [discriminate Hh|]); exact Hp.
Defined.

(** X5. Every procedure a handler hands back, run in any world at any later
    time, returns normally and does nothing but send messages to the host:
    one or two of them. *)
Theorem procedure_only_sends :
  forall (e : Event) (w w' : World) (patch : AppNavigationState.partial)
         (procedure : Procedure),
    handle e w = (w', Returned (Some (patch, procedure))) ->
    forall w0 : World,
      exists msgs : list HostMessage,
        procedure w0 = (after_calls w0 (map sendMessageToHost msgs),
                        Returned tt) /\
        1 <= length msgs <= 2.
Proof.
  intros e w w' patch procedure H w0. revert H. unfold after_calls.
  destruct e as [msg|msg|msg|msg]; crush_event w;
    intros H; try discriminate H; injection H as _ _ <-;
    rewrite <- ?app_assoc;
    first [ solve [eexists [_; _]; split; [reflexivity|cbn; lia]]
          | solve [eexists [_]; split; [reflexivity|cbn; lia]] ].
Qed.

Lemma procedure_only_sends_witness :
  exists msgs : list HostMessage,
    call (sendMessageToHost (SET_APP_PAGES [Sample.p3])) Sample.fresh =
      (after_calls Sample.fresh (map sendMessageToHost msgs), Returned tt) /\
    1 <= length msgs <= 2.
Proof.
  apply (procedure_only_sends (EvPagesChanged Sample.pagesChanged)
                              Sample.legacy Sample.legacy
                              (AppNavigationState.mk absent
                                 (present [Sample.p3]) absent absent)).
  reflexivity.
Defined.

Lemma heap_with_fields (w : World) (this : Ref) (o : V1Fields.t) :
  heap (with_fields w this o) this = o.
Proof. cbn. now rewrite Nat.eqb_refl. Qed.

(** X6. A [NewSession] without pages that reaches an active legacy strategy
    throws before any outward call and before the title is set, but after
    the strategy has taken over the message's fields: the stored page list
    is empty from then on, and a [PageNotFound] that follows falls back to
    the empty hash. *)
Theorem legacy_newSession_without_pages :
  forall (msg : NewSession.t) (notFound : PageNotFound.t) (this : Ref)
         (w : World),
    versionManager w = Some (V1 this) ->
    NewSession.appPages msg = [] ->
    handle (EvNewSession msg) w =
      (with_fields w this (fieldsOf msg), Thrown TypeError) /\
    V1Fields.appPages (heap (with_fields w this (fieldsOf msg)) this) = [] /\
    exists procedure : Procedure,
      handle (EvPageNotFound notFound) (with_fields w this (fieldsOf msg)) =
        (after_calls (with_fields w this (fieldsOf msg))
                     [onPageNotFound (PageNotFound.pageName notFound)],
         Returned (Some
           (AppNavigationState.mk absent absent (present (Some "")) absent,
            procedure))) /\
      forall w0 : World,
        procedure w0 =
        (after_calls w0
           [sendMessageToHost (SET_CURRENT_PAGE_NAME (Some "") (Some ""))],
         Returned tt).
Proof.
  intros msg notFound this w Hvm Hnil. cbn [handle].
  rewrite (AppNavigation_handleNewSession_V1 msg w this Hvm).
  rewrite (V1_handleNewSession_empty this msg w Hnil).
  split; [reflexivity|].
  assert (Hstored :
    V1Fields.appPages (heap (with_fields w this (fieldsOf msg)) this) = []).
  { rewrite heap_with_fields. exact Hnil. }
  split; [exact Hstored|].
  destruct (V1_handlePageNotFound_run this notFound
              (with_fields w this (fieldsOf msg))) as [procedure [Hrun Hproc]].
  exists procedure. rewrite Hstored in Hrun, Hproc. split; [|exact Hproc].
  unfold AppNavigation.handlePageNotFound. run.
  cbn [versionManager with_fields]. rewrite Hvm. exact Hrun.
Qed.

Lemma legacy_newSession_without_pages_witness :
  handle (EvNewSession Sample.emptySession) Sample.legacy =
    (with_fields Sample.legacy 0 (fieldsOf Sample.emptySession),
     Thrown TypeError).
Proof.
  apply (legacy_newSession_without_pages Sample.emptySession
           Sample.pageNotFound 0 Sample.legacy); reflexivity.
Defined.

Lemma newPageNameOf_main (msg : NewSession.t) (mainPage : IAppPage.t)
      (rest : list IAppPage.t) :
  NewSession.appPages msg = mainPage :: rest ->
  IAppPage.pageScriptHash mainPage = Some (NewSession.pageScriptHash msg) ->
  newPageNameOf msg = IAppPage.pageName mainPage ?? "".
Proof.
  intros Hpages Hhash. unfold newPageNameOf. rewrite Hpages. cbn [find].
  rewrite Hhash. cbn [strict_eq]. now rewrite String.eqb_refl.
Qed.

Lemma newPageNameOf_unknown (msg : NewSession.t) :
  ~ has_page (NewSession.pageScriptHash msg) (NewSession.appPages msg) ->
  newPageNameOf msg = "".
Proof.
  intros Hno. unfold newPageNameOf.
  destruct (find (fun page => strict_eq (IAppPage.pageScriptHash page)
                                        (NewSession.pageScriptHash msg))
                 (NewSession.appPages msg)) as [page|] eqn:Hfind.
  - exfalso. apply Hno. exists page. exact (find_hash_some _ _ _ Hfind).
  - reflexivity.
Qed.

(** X7. [AppNavigationV1.handleNewSession] when the first page has the
    session's hash: the page url callback gets the main page's name twice
    and the flag set, the title is that name and the suffix, the metric
    reports the main page, and the procedure, run at once, tells the host
    the page list and an empty current page name. *)
Theorem V1_handleNewSession_on_main_page :
  forall (this : Ref) (msg : NewSession.t) (w : World)
         (mainPage : IAppPage.t) (rest : list IAppPage.t),
    NewSession.appPages msg = mainPage :: rest ->
    IAppPage.pageScriptHash mainPage = Some (NewSession.pageScriptHash msg) ->
    exists (w' : World) (patch : AppNavigationState.partial)
           (procedure : Procedure),
      AppNavigationV1.handleNewSession this msg w =
        (w', Returned (Some (patch, procedure))) /\
      calls w' =
        (calls w ++
         [onUpdatePageUrl (IAppPage.pageName mainPage ?? "")
                          (Some (IAppPage.pageName mainPage ?? "")) true;
          metricsEnqueue "updateReport" (S (length rest)) (Some true)])%list /\
      title w' = (IAppPage.pageName mainPage ?? "") ++ middot_Streamlit /\
      procedure w' =
        (after_calls w'
           [sendMessageToHost (SET_APP_PAGES (mainPage :: rest));
            sendMessageToHost
              (SET_CURRENT_PAGE_NAME
                 (Some "") (Some (NewSession.pageScriptHash msg)))],
         Returned tt).
Proof.
  intros this msg w mainPage rest Hpages Hhash.
  destruct (V1_handleNewSession_cons this msg w mainPage rest Hpages)
    as [procedure [Hrun Hproc]].
  rewrite (newPageNameOf_main msg mainPage rest Hpages Hhash) in Hrun.
  assert (Hview : strict_eq (IAppPage.pageScriptHash mainPage)
                            (NewSession.pageScriptHash msg) = true).
  { rewrite Hhash. cbn. apply String.eqb_refl. }
  rewrite Hview, Hpages in Hrun.
  do 3 eexists. split; [exact Hrun|].
  split; [reflexivity|]. split; [reflexivity|].
  rewrite Hproc, Hview.
  cbn [heap after_calls with_title with_fields].
  rewrite Nat.eqb_refl. unfold fieldsOf. cbn [V1Fields.appPages
    V1Fields.currentPageScriptHash]. rewrite Hpages. reflexivity.
Qed.

Lemma V1_handleNewSession_on_main_page_witness :
  exists (w' : World) (patch : AppNavigationState.partial)
         (procedure : Procedure),
    AppNavigationV1.handleNewSession 0 Sample.onePageSession Sample.legacy =
      (w', Returned (Some (patch, procedure))) /\
    calls w' =
      (calls Sample.legacy ++
       [onUpdatePageUrl "Home" (Some "Home") true;
        metricsEnqueue "updateReport" 1 (Some true)])%list /\
    title w' = "Home · Streamlit" /\
    procedure w' =
      (after_calls w'
         [sendMessageToHost (SET_APP_PAGES [Sample.home]);
          sendMessageToHost (SET_CURRENT_PAGE_NAME (Some "") (Some "h1"))],
       Returned tt).
Proof.
  apply (V1_handleNewSession_on_main_page 0 Sample.onePageSession
           Sample.legacy Sample.home []); reflexivity.
Defined.

(** X8. [AppNavigationV1.handleNewSession] when no page has the session's hash
    (the page list not being empty): nothing fails; the new page name
    degrades to the empty string, so the callback gets an empty name with
    the flag off, the title is the bare suffix, and the host is told an
    empty current page name next to the unknown hash, which the patch also
    carries. *)
Theorem V1_handleNewSession_unknown_hash :
  forall (this : Ref) (msg : NewSession.t) (w : World)
         (mainPage : IAppPage.t) (rest : list IAppPage.t),
    NewSession.appPages msg = mainPage :: rest ->
    ~ has_page (NewSession.pageScriptHash msg) (NewSession.appPages msg) ->
    exists (w' : World) (patch : AppNavigationState.partial)
           (procedure : Procedure),
      AppNavigationV1.handleNewSession this msg w =
        (w', Returned (Some (patch, procedure))) /\
      AppNavigationState.currentPageScriptHash patch =
        present (Some (NewSession.pageScriptHash msg)) /\
      calls w' =
        (calls w ++
         [onUpdatePageUrl (IAppPage.pageName mainPage ?? "") (Some "") false;
          metricsEnqueue "updateReport" (S (length rest)) (Some false)])%list /\
      title w' = middot_Streamlit /\
      procedure w' =
        (after_calls w'
           [sendMessageToHost (SET_APP_PAGES (mainPage :: rest));
            sendMessageToHost
              (SET_CURRENT_PAGE_NAME
                 (Some "") (Some (NewSession.pageScriptHash msg)))],
         Returned tt).
Proof.
  intros this msg w mainPage rest Hpages Hno.
  destruct (V1_handleNewSession_cons this msg w mainPage rest Hpages)
    as [procedure [Hrun Hproc]].
  rewrite (newPageNameOf_unknown msg Hno) in Hrun.
  assert (Hview : strict_eq (IAppPage.pageScriptHash mainPage)
                            (NewSession.pageScriptHash msg) = false).
  { destruct (strict_eq (IAppPage.pageScriptHash mainPage)
                        (NewSession.pageScriptHash msg)) eqn:E;
      [|reflexivity].
    exfalso. apply Hno. exists mainPage. rewrite Hpages.
    split; [now left|].
    destruct (IAppPage.pageScriptHash mainPage) as [h|]; cbn in E;
      [|discriminate E].
    apply String.eqb_eq in E. now subst. }
  rewrite Hview, Hpages in Hrun.
  do 3 eexists. split; [exact Hrun|].
  split; [reflexivity|]. split; [reflexivity|]. split; [reflexivity|].
  rewrite Hproc, Hview, (newPageNameOf_unknown msg Hno).
  cbn [heap after_calls with_title with_fields].
  rewrite Nat.eqb_refl. unfold fieldsOf. cbn [V1Fields.appPages
    V1Fields.currentPageScriptHash]. rewrite Hpages. reflexivity.
Qed.

Lemma V1_handleNewSession_unknown_hash_witness :
  exists (w' : World) (patch : AppNavigationState.partial)
         (procedure : Procedure),
    AppNavigationV1.handleNewSession
      0 (NewSession.mk [Sample.home; Sample.about] "gone" None)
      Sample.legacy =
      (w', Returned (Some (patch, procedure))) /\
    AppNavigationState.currentPageScriptHash patch = present (Some "gone") /\
    calls w' =
      (calls Sample.legacy ++
       [onUpdatePageUrl "Home" (Some "") false;
        metricsEnqueue "updateReport" 2 (Some false)])%list /\
    title w' = middot_Streamlit /\
    procedure w' =
      (after_calls w'
         [sendMessageToHost (SET_APP_PAGES [Sample.home; Sample.about]);
          sendMessageToHost (SET_CURRENT_PAGE_NAME (Some "") (Some "gone"))],
       Returned tt).
Proof.
  apply (V1_handleNewSession_unknown_hash
           0 (NewSession.mk [Sample.home; Sample.about] "gone" None)
           Sample.legacy Sample.home [Sample.about]).
  - reflexivity.
  - intros [p [Hin Hp]]. cbn in Hin.
    destruct Hin as [<-|[<-|[]]]; discriminate Hp.
Defined.

(** X9. The procedure of [AppNavigationV1.handleNewSession] reads the strategy's
    page list and hash when it is run. Run at once it reports the session
    it came from; run after the strategy has handled another [NewSession]
    (even one that threw for want of pages) it reports the later session's
    pages and hash, next to the page name computed for the earlier one. *)
Theorem V1_newSession_procedure_reads_store :
  forall (this : Ref) (first later : NewSession.t) (w : World)
         (mainPage : IAppPage.t) (rest : list IAppPage.t),
    NewSession.appPages first = mainPage :: rest ->
    exists (w1 : World) (patch : AppNavigationState.partial)
           (procedure : Procedure) (name : string),
      AppNavigationV1.handleNewSession this first w =
        (w1, Returned (Some (patch, procedure))) /\
      name = (if strict_eq (IAppPage.pageScriptHash mainPage)
                           (NewSession.pageScriptHash first)
              then "" else newPageNameOf first) /\
      procedure w1 =
        (after_calls w1
           [sendMessageToHost (SET_APP_PAGES (NewSession.appPages first));
            sendMessageToHost
              (SET_CURRENT_PAGE_NAME
                 (Some name) (Some (NewSession.pageScriptHash first)))],
         Returned tt) /\
      let w2 := fst (AppNavigationV1.handleNewSession this later w1) in
      procedure w2 =
        (after_calls w2
           [sendMessageToHost (SET_APP_PAGES (NewSession.appPages later));
            sendMessageToHost
              (SET_CURRENT_PAGE_NAME
                 (Some name) (Some (NewSession.pageScriptHash later)))],
         Returned tt).
Proof.
  intros this first later w mainPage rest Hpages.
  destruct (V1_handleNewSession_cons this first w mainPage rest Hpages)
    as [procedure [Hrun Hproc]].
  do 4 eexists. split; [exact Hrun|]. split; [reflexivity|]. split.
  - rewrite Hproc. cbn [heap after_calls with_title with_fields].
    rewrite Nat.eqb_refl. reflexivity.
  - cbv zeta. rewrite Hproc.
    assert (Hstored : forall w0,
      heap (fst (AppNavigationV1.handleNewSession this later w0)) this =
      fieldsOf later).
    { intros w0.
      destruct (NewSession.appPages later) as [|m r] eqn:Hl.
      - rewrite (V1_handleNewSession_empty this later w0 Hl).
        apply heap_with_fields.
      - destruct (V1_handleNewSession_cons this later w0 m r Hl)
          as [p [Hr _]].
        rewrite Hr. cbn [fst heap after_calls with_title].
        apply heap_with_fields. }
    rewrite Hstored. reflexivity.
Qed.

Lemma V1_newSession_procedure_reads_store_witness :
  exists (w1 : World) (patch : AppNavigationState.partial)
         (procedure : Procedure) (name : string),
    AppNavigationV1.handleNewSession 0 (Sample.session None) Sample.legacy =
      (w1, Returned (Some (patch, procedure))) /\
    name = "About" /\
    procedure w1 =
      (after_calls w1
         [sendMessageToHost (SET_APP_PAGES [Sample.home; Sample.about]);
          sendMessageToHost (SET_CURRENT_PAGE_NAME (Some name) (Some "h2"))],
       Returned tt) /\
    let w2 :=
      fst (AppNavigationV1.handleNewSession 0 Sample.onePageSession w1) in
    procedure w2 =
      (after_calls w2
         [sendMessageToHost (SET_APP_PAGES [Sample.home]);
          sendMessageToHost (SET_CURRENT_PAGE_NAME (Some name) (Some "h1"))],
       Returned tt).
Proof.
  exact (V1_newSession_procedure_reads_store
           0 (Sample.session None) Sample.onePageSession Sample.legacy
           Sample.home [Sample.about] eq_refl).
Defined.

Lemma length_flattenAppPages (sections : list INavigationSection.t) :
  length (AppNavigationV2.flattenAppPages sections) =
  list_sum (map (fun s => length (INavigationSection.appPages s ?? []))
                sections).
Proof.
  unfold AppNavigationV2.flattenAppPages.
  induction sections as [|s rest IH]; cbn; [reflexivity|].
  now rewrite length_app, IH.
Qed.

(** X10. The outward calls of [AppNavigationV2.handleNavigation] when the current
    page is found: first the metric, with the number of pages of all
    sections together and the page's default flag as it is, then the page
    url callback with an empty main page name; for the default page the
    callback gets an empty page name and the flag set, for any other page
    the page's own name (possibly absent) and the flag off. The document
    title is not touched, and the patch hides the sidebar navigation exactly
    when the position is the string hidden. *)
Theorem V2_handleNavigation_calls :
  forall (msg : Navigation.t) (w : World),
    has_page (Navigation.pageScriptHash msg)
             (AppNavigationV2.flattenAppPages (Navigation.sections msg)) ->
    exists (currentPage : IAppPage.t) (w' : World)
           (patch : AppNavigationState.partial) (procedure : Procedure)
           (name : option string) (isMain : bool),
      find (fun p => strict_eq (IAppPage.pageScriptHash p)
                               (Navigation.pageScriptHash msg))
           (AppNavigationV2.flattenAppPages (Navigation.sections msg)) =
        Some currentPage /\
      AppNavigationV2.handleNavigation msg w =
        (w', Returned (Some (patch, procedure))) /\
      calls w' =
        (calls w ++
         [metricsEnqueue
            "updateReport"
            (list_sum (map (fun s =>
                              length (INavigationSection.appPages s ?? []))
                           (Navigation.sections msg)))
            (IAppPage.isDefault currentPage);
          onUpdatePageUrl "" name isMain])%list /\
      (IAppPage.isDefault currentPage = Some true ->
       name = Some "" /\ isMain = true) /\
      (IAppPage.isDefault currentPage <> Some true ->
       name = IAppPage.pageName currentPage /\ isMain = false) /\
      title w' = title w /\
      heap w' = heap w /\
      (AppNavigationState.hideSidebarNav patch = present true <->
       Navigation.position msg = "hidden").
Proof.
  intros msg w Hhas.
  destruct (has_page_find _ _ Hhas) as [cur Hfind].
  destruct (V2_handleNavigation_found msg cur w Hfind)
    as [procedure [Hrun _]].
  rewrite length_flattenAppPages in Hrun.
  exists cur. do 5 eexists.
  split; [exact Hfind|]. split; [exact Hrun|]. split; [reflexivity|].
  split; [|split; [|split; [reflexivity|split; [reflexivity|]]]].
  - intros Hd. unfold currentPageNameOf. rewrite Hd. auto.
  - intros Hd. unfold currentPageNameOf.
    destruct (IAppPage.isDefault cur) as [[|]|]; cbn; auto.
    contradiction.
  - cbn [AppNavigationState.hideSidebarNav]. split.
    + intros H. injection H as H. now apply String.eqb_eq.
    + intros H. apply String.eqb_eq in H. now rewrite H.
Qed.

Lemma V2_handleNavigation_calls_witness :
  exists (currentPage : IAppPage.t) (w' : World)
         (patch : AppNavigationState.partial) (procedure : Procedure)
         (name : option string) (isMain : bool),
    find (fun p => strict_eq (IAppPage.pageScriptHash p) "a1")
         [Sample.p1; Sample.p2; Sample.p3] = Some currentPage /\
    AppNavigationV2.handleNavigation (Sample.navigation "a1") Sample.fresh =
      (w', Returned (Some (patch, procedure))) /\
    calls w' =
      (calls Sample.fresh ++
       [metricsEnqueue "updateReport" 3 (IAppPage.isDefault currentPage);
        onUpdatePageUrl "" name isMain])%list /\
    (IAppPage.isDefault currentPage = Some true ->
     name = Some "" /\ isMain = true) /\
    (IAppPage.isDefault currentPage <> Some true ->
     name = IAppPage.pageName currentPage /\ isMain = false) /\
    title w' = title Sample.fresh /\
    heap w' = heap Sample.fresh /\
    (AppNavigationState.hideSidebarNav patch = present true <->
     "sidebar" = "hidden").
Proof.
  apply (V2_handleNavigation_calls (Sample.navigation "a1") Sample.fresh).
  exists Sample.p1. split; [cbn; auto|reflexivity].
Defined.

(** ** The keys of [navPageSections] *)

Lemma existsb_eqb_In (k : string) (l : list string) :
  existsb (String.eqb k) l = true <-> In k l.
Proof.
  rewrite existsb_exists. split.
  - intros [x [Hin Heq]]. apply String.eqb_eq in Heq. now subst.
  - intros Hin. exists k. split; [exact Hin|apply String.eqb_refl].
Qed.

Lemma first_keys_In (sections : list INavigationSection.t) :
  forall (seen : list string) (k : string),
    In k (first_keys seen sections) <->
    In k (map sectionKey sections) /\ ~ In k seen.
Proof.
  induction sections as [|s rest IH]; intros seen k; cbn [first_keys map].
  - cbn. tauto.
  - fold (sectionKey s).
    destruct (existsb (String.eqb (sectionKey s)) seen) eqn:E.
    + apply existsb_eqb_In in E. rewrite IH. cbn [In]. split.
      * intros [H1 H2]. auto.
      * intros [[H1|H1] H2]; [subst; contradiction|auto].
    + assert (Hn : ~ In (sectionKey s) seen).
      { intros Hin. apply existsb_eqb_In in Hin. congruence. }
      cbn [In]. rewrite IH, in_app_iff. cbn [In]. split.
      * intros [H|[H1 H2]]; [subst; auto|]. split; [auto|]. intros H3. auto.
      * intros [[H1|H1] H2]; [auto|].
        destruct (string_dec (sectionKey s) k) as [Heq|Hne]; [auto|].
        right. split; [exact H1|]. intros [H|[H|[]]]; auto.
Qed.

Lemma first_keys_NoDup (sections : list INavigationSection.t) :
  forall seen : list string, NoDup (first_keys seen sections).
Proof.
  induction sections as [|s rest IH]; intros seen; cbn [first_keys].
  - constructor.
  - fold (sectionKey s).
    destruct (existsb (String.eqb (sectionKey s)) seen); [apply IH|].
    constructor; [|apply IH].
    rewrite first_keys_In, in_app_iff. cbn. tauto.
Qed.

Lemma first_keys_length (sections : list INavigationSection.t) :
  forall seen : list string,
    length (first_keys seen sections) <= length sections.
Proof.
  induction sections as [|s rest IH]; intros seen; cbn [first_keys length].
  - lia.
  - destruct (existsb _ seen).
    + specialize (IH seen). lia.
    + cbn [length]. specialize (IH (seen ++ [INavigationSection.header s ?? ""])%list).
      lia.
Qed.

Lemma JsMap_set_fresh {V : Type} (m : JsMap.t V) (k : string) (v : V) :
  ~ In k (JsMap.keys m) ->
  JsMap.set m k v = (m ++ [(k, v)])%list.
Proof.
  induction m as [|[k0 v0] m IH]; cbn; intros Hn.
  - reflexivity.
  - destruct (String.eqb_spec k0 k) as [->|Hne].
    + exfalso. apply Hn. now left.
    + rewrite IH; [reflexivity|]. intros Hin. apply Hn. now right.
Qed.

Lemma fold_sections_distinct (sections : list INavigationSection.t) :
  forall m : JsMap.t (option (list IAppPage.t)),
    NoDup (map sectionKey sections) ->
    (forall s, In s sections -> ~ In (sectionKey s) (JsMap.keys m)) ->
    fold_left setSection sections m =
    (m ++ map (fun s => (sectionKey s, INavigationSection.appPages s))
              sections)%list.
Proof.
  induction sections as [|s rest IH]; intros m Hnd Hfresh;
    cbn [fold_left map].
  - now rewrite app_nil_r.
  - inversion Hnd as [|k ks Hk Hks]; subst.
    assert (Hset : setSection m s =
                   (m ++ [(sectionKey s, INavigationSection.appPages s)])%list).
    { unfold setSection. rewrite or_empty_eq.
      apply JsMap_set_fresh. apply Hfresh. now left. }
    rewrite Hset, IH; [now rewrite <- app_assoc|exact Hks|].
    intros s' Hin. unfold JsMap.keys. rewrite map_app, in_app_iff.
    cbn [map fst In]. intros [H|[H|[]]].
    + apply (Hfresh s'); [now right|exact H].
    + apply Hk. rewrite H. now apply in_map.
Qed.

(** X11. [navPageSections] as [AppNavigationV2.handleNavigation] builds it never
    has a key twice; its keys are just the headers of the message's
    sections (the empty string for an absent header), so it has at most as
    many entries as the message has sections; and when the headers are
    pairwise different it is the sections themselves, header and page list,
    in message order. *)
Theorem navPageSections_keys :
  forall sections : list INavigationSection.t,
    NoDup (JsMap.keys (AppNavigationV2.buildNavPageSections sections)) /\
    (forall k : string,
       In k (JsMap.keys (AppNavigationV2.buildNavPageSections sections)) <->
       exists s, In s sections /\ INavigationSection.header s ?? "" = k) /\
    length (AppNavigationV2.buildNavPageSections sections) <=
      length sections /\
    (NoDup (map (fun s => INavigationSection.header s ?? "") sections) ->
     AppNavigationV2.buildNavPageSections sections =
     map (fun s => (INavigationSection.header s ?? "",
                    INavigationSection.appPages s)) sections).
Proof.
  intros sections.
  change (AppNavigationV2.buildNavPageSections sections)
    with (fold_left setSection sections []).
  assert (Hkeys : JsMap.keys (fold_left setSection sections []) =
                  first_keys [] sections)
    by exact (fold_sections_keys sections []).
  split; [|split; [|split]].
  - rewrite Hkeys. apply first_keys_NoDup.
  - intros k. rewrite Hkeys, first_keys_In, in_map_iff. cbn [In].
    unfold sectionKey. split.
    + intros [[s [Hs Hin]] _]. now exists s.
    + intros [s [Hin Hs]]. split; [now exists s|tauto].
  - rewrite <- (length_map fst). fold (JsMap.keys (fold_left setSection sections [])).
    rewrite Hkeys. apply first_keys_length.
  - intros Hnd.
    exact (fold_sections_distinct sections [] Hnd (fun s _ H => H)).
Qed.

Lemma navPageSections_keys_witness :
  AppNavigationV2.buildNavPageSections
    (Sample.sections Sample.p1 Sample.p2 Sample.p3) =
  [("A", Some [Sample.p1; Sample.p2]); ("", Some [Sample.p3])].
Proof.
  apply (proj2 (proj2 (proj2 (navPageSections_keys
                                (Sample.sections Sample.p1 Sample.p2
                                                 Sample.p3))))).
  repeat constructor; cbn; intuition discriminate.
Defined.

(** X12. Only [NewSession] touches the document title and the legacy strategy
    objects: over any sequence of [PagesChanged], [Navigation] and
    [PageNotFound] events, procedures run or not, handlers throwing or not,
    the title, the fields of every legacy strategy object and the number of
    legacy strategy objects stay as they were. In particular a [Navigation]
    never sets the title; what it may create is a sectioned strategy object,
    which has no field but [parent]. *)
Theorem only_newSession_sets_title_and_fields :
  forall (es : list (Event * bool)) (w : World),
    Forall (fun eb => is_newSession (fst eb) = false) es ->
    title (processAll es w) = title w /\
    heap (processAll es w) = heap w /\
    next (processAll es w) = next w.
Proof.
  induction es as [|[e b] es IH]; intros w Hall; cbn [processAll].
  - auto.
  - inversion Hall as [|eb es' He Hes]; subst. cbn [fst] in He.
    destruct (process_frame e b w He) as [Hh [Hn Ht]].
    destruct (IH (process e b w) Hes) as [IHt [IHh IHn]].
    rewrite IHt, IHh, IHn. auto.
Qed.

Lemma only_newSession_sets_title_and_fields_witness :
  title (processAll [(EvNavigation (Sample.navigation "a2"), true);
                     (EvPageNotFound Sample.pageNotFound, true);
                     (EvNavigation (Sample.navigation "zz"), true)]
                    Sample.legacy) = title Sample.legacy /\
  heap (processAll [(EvNavigation (Sample.navigation "a2"), true);
                    (EvPageNotFound Sample.pageNotFound, true);
                    (EvNavigation (Sample.navigation "zz"), true)]
                   Sample.legacy) = heap Sample.legacy /\
  next (processAll [(EvNavigation (Sample.navigation "a2"), true);
                    (EvPageNotFound Sample.pageNotFound, true);
                    (EvNavigation (Sample.navigation "zz"), true)]
                   Sample.legacy) = next Sample.legacy.
Proof.
  apply (only_newSession_sets_title_and_fields _ Sample.legacy).
  repeat constructor.
Defined.

(** X13. A legacy session from start to end. On a dispatcher without a strategy
    a [NewSession] with at least two pages, a [PagesChanged] and a
    [PageNotFound], each procedure run after its handler, make these
    outward calls in this order: the page url callback, the metric, the
    session's pages and the current page name to the host, the changed
    pages to the host, the page-not-found callback, and an empty current
    page name with the hash of the session's first page to the host. The
    changed pages reach the host but are not what the fallback is taken
    from. *)
Theorem legacy_session_calls :
  forall (msg : NewSession.t) (changed : PagesChanged.t)
         (notFound : PageNotFound.t) (w : World)
         (mainPage second : IAppPage.t) (rest : list IAppPage.t),
    versionManager w = None ->
    NewSession.appPages msg = mainPage :: second :: rest ->
    calls (processAll [(EvNewSession msg, true);
                       (EvPagesChanged changed, true);
                       (EvPageNotFound notFound, true)] w) =
    (calls w ++
     [onUpdatePageUrl (IAppPage.pageName mainPage ?? "")
                      (Some (newPageNameOf msg))
                      (strict_eq (IAppPage.pageScriptHash mainPage)
                                 (NewSession.pageScriptHash msg));
      metricsEnqueue "updateReport" (S (S (length rest)))
                     (Some (strict_eq (IAppPage.pageScriptHash mainPage)
                                      (NewSession.pageScriptHash msg)));
      sendMessageToHost (SET_APP_PAGES (mainPage :: second :: rest));
      sendMessageToHost
        (SET_CURRENT_PAGE_NAME
           (Some (if strict_eq (IAppPage.pageScriptHash mainPage)
                               (NewSession.pageScriptHash msg)
                  then "" else newPageNameOf msg))
           (Some (NewSession.pageScriptHash msg)));
      sendMessageToHost (SET_APP_PAGES (PagesChanged.appPages changed));
      onPageNotFound (PageNotFound.pageName notFound);
      sendMessageToHost
        (SET_CURRENT_PAGE_NAME
           (Some "") (Some (IAppPage.pageScriptHash mainPage ?? "")))])%list.
Proof.
  intros msg changed notFound w mainPage second rest Hvm Hpages.
  assert (Hlen : 1 < length (NewSession.appPages msg))
    by (rewrite Hpages; cbn; lia).
  cbn [processAll]. unfold process at 3. cbn [handle].
  rewrite (AppNavigation_handleNewSession_create msg w Hvm Hlen).
  destruct (V1_handleNewSession_cons (next w) msg (with_new_V1 w)
              mainPage (second :: rest) Hpages) as [procedure [Hrun Hproc]].
  rewrite Hrun, Hproc. cbn [fst].
  unfold process, handle, AppNavigation.handlePagesChanged,
    AppNavigation.handlePageNotFound, AppNavigationV1.handlePagesChanged,
    AppNavigationV1.handlePageNotFound.
  run. cbn. rewrite Nat.eqb_refl. cbn. rewrite Hpages. cbn.
  rewrite <- !app_assoc. reflexivity.
Qed.

Lemma legacy_session_calls_witness :
  calls (processAll [(EvNewSession (Sample.session None), true);
                     (EvPagesChanged Sample.pagesChanged, true);
                     (EvPageNotFound Sample.pageNotFound, true)]
                    Sample.fresh) =
  [onUpdatePageUrl "Home" (Some "About") false;
   metricsEnqueue "updateReport" 2 (Some false);
   sendMessageToHost (SET_APP_PAGES [Sample.home; Sample.about]);
   sendMessageToHost (SET_CURRENT_PAGE_NAME (Some "About") (Some "h2"));
   sendMessageToHost (SET_APP_PAGES [Sample.p3]);
   onPageNotFound "missing";
   sendMessageToHost (SET_CURRENT_PAGE_NAME (Some "") (Some "h1"))].
Proof.
  exact (legacy_session_calls (Sample.session None) Sample.pagesChanged
           Sample.pageNotFound Sample.fresh Sample.home Sample.about []
           eq_refl eq_refl).
Defined.

(** * Properties of the selection code of PlotlyChart *)

(** ** Splitting *)

Lemma split_pieces_count (c : ascii) (s : string) :
  length (snd (JsString.split_pieces c s)) = LassoPath.count_char c s.
Proof.
  induction s as [|a s IH]; cbn; [reflexivity|].
  destruct (JsString.split_pieces c s) as [piece pieces].
  destruct (Ascii.eqb a c); cbn in *; now rewrite IH.
Qed.

Lemma split_length (c : ascii) (s : string) :
  length (JsString.split c s) = S (LassoPath.count_char c s).
Proof.
  unfold JsString.split. rewrite <- split_pieces_count.
  now destruct (JsString.split_pieces c s).
Qed.

Lemma split_pieces_clean (c : ascii) (s : string) :
  LassoPath.has_char c s = false ->
  JsString.split_pieces c s = (s, []).
Proof.
  induction s as [|a s IH]; cbn; [reflexivity|].
  intros H. apply orb_false_iff in H. destruct H as [Ha Hs].
  now rewrite (IH Hs), Ha.
Qed.

Lemma split_pieces_app (c : ascii) (s t : string) :
  LassoPath.has_char c s = false ->
  JsString.split_pieces c (s ++ String c t) = (s, JsString.split c t).
Proof.
  induction s as [|a s IH]; cbn [append LassoPath.has_char].
  - intros _. cbn. unfold JsString.split. rewrite Ascii.eqb_refl.
    now destruct (JsString.split_pieces c t).
  - intros H. apply orb_false_iff in H. destruct H as [Ha Hs].
    cbn [JsString.split_pieces]. now rewrite (IH Hs), Ha.
Qed.

Lemma replace_first_clean (c : ascii) (s : string) :
  LassoPath.has_char c s = false ->
  JsString.replace_first c s = s.
Proof.
  induction s as [|a s IH]; cbn; [reflexivity|].
  intros H. apply orb_false_iff in H. destruct H as [Ha Hs].
  now rewrite Ha, (IH Hs).
Qed.

Lemma replace_first_end (c : ascii) (s : string) :
  LassoPath.has_char c s = false ->
  JsString.replace_first c (s ++ String c "") = s.
Proof.
  induction s as [|a s IH]; cbn.
  - intros _. now rewrite Ascii.eqb_refl.
  - intros H. apply orb_false_iff in H. destruct H as [Ha Hs].
    now rewrite Ha, (IH Hs).
Qed.

Lemma has_char_app (c : ascii) (s t : string) :
  LassoPath.has_char c (s ++ t) =
  LassoPath.has_char c s || LassoPath.has_char c t.
Proof.
  induction s as [|a s IH]; cbn; [reflexivity|].
  now rewrite IH, orb_assoc.
Qed.

(** ** [parseLassoPath] *)

Lemma fold_pushPoint {num : Type} (Number : string -> num)
      (pieces : list string) :
  forall acc : PlotlyChart.SelectionRange num (option num),
    fold_left (PlotlyChart.pushPoint Number) pieces acc =
    PlotlyChart.mkSelectionRange
      (PlotlyChart.x acc ++
       map (fun p => Number (fst (JsString.split_pieces "," p))) pieces)
      (PlotlyChart.y acc ++
       map (fun p => option_map Number
                       (hd_error (snd (JsString.split_pieces "," p))))
           pieces).
Proof.
  induction pieces as [|p pieces IH]; intros acc; cbn [fold_left map].
  - rewrite !app_nil_r. now destruct acc.
  - rewrite IH. unfold PlotlyChart.pushPoint.
    destruct (JsString.split_pieces "," p) as [first others].
    cbn [PlotlyChart.x PlotlyChart.y fst snd].
    now rewrite <- !app_assoc.
Qed.


(** X14. [parseLassoPath] always gives as many [y] as [x]. The empty string
    gives no point; any other string gives one point more than it has
    letters L once its first M and its first Z are taken out, so never an
    empty result: a path that is only M and Z gives one point, [Number("")]
    and [undefined]. *)
Theorem parseLassoPath_shape :
  forall (num : Type) (Number : string -> num) (pathData : string),
    length (PlotlyChart.x (PlotlyChart.parseLassoPath Number pathData)) =
    length (PlotlyChart.y (PlotlyChart.parseLassoPath Number pathData)) /\
    (pathData = "" ->
     PlotlyChart.parseLassoPath Number pathData =
     PlotlyChart.mkSelectionRange [] []) /\
    (pathData <> "" ->
     length (PlotlyChart.x (PlotlyChart.parseLassoPath Number pathData)) =
     S (LassoPath.count_char
          "L" (JsString.replace_first
                 "Z" (JsString.replace_first "M" pathData)))) /\
    PlotlyChart.parseLassoPath Number "MZ" =
    PlotlyChart.mkSelectionRange [Number ""] [None].
Proof.
  intros num Number pathData. unfold PlotlyChart.parseLassoPath.
  destruct (String.eqb_spec pathData "") as [->|Hne].
  - cbn. repeat split; auto. intros H. now contradiction H.
  - rewrite fold_pushPoint. cbn [PlotlyChart.x PlotlyChart.y app].
    rewrite !length_map. split; [reflexivity|]. split; [intros H; contradiction|].
    split; [|reflexivity]. intros _. apply split_length.
Qed.

Lemma parseLassoPath_shape_witness :
  length (PlotlyChart.x (PlotlyChart.parseLassoPath String.length "M1,2L3")) =
  S (LassoPath.count_char "L" "1,2L3").
Proof.
  apply (proj1 (proj2 (proj2 (parseLassoPath_shape
                                nat String.length "M1,2L3")))).
  discriminate.
Defined.

Lemma coordinate_clean (s : string) :
  LassoPath.coordinate s = true ->
  LassoPath.has_char "M" s = false /\ LassoPath.has_char "Z" s = false /\
  LassoPath.has_char "L" s = false /\ LassoPath.has_char "," s = false.
Proof.
  unfold LassoPath.coordinate. intros H. apply negb_true_iff in H.
  repeat (apply orb_false_iff in H; destruct H as [H ?]). auto.
Qed.

Lemma point_has_char (c : ascii) (p : string * string) :
  c <> ","%char ->
  LassoPath.has_char c (fst p) = false ->
  LassoPath.has_char c (snd p) = false ->
  LassoPath.has_char c (LassoPath.point p) = false.
Proof.
  intros Hc H1 H2. unfold LassoPath.point. rewrite has_char_app.
  cbn [LassoPath.has_char]. rewrite H1, H2.
  destruct (Ascii.eqb_spec ","%char c) as [E|_]; [now subst|reflexivity].
Qed.

Lemma points_no_Z (first : string * string) (others : list (string * string)) :
  Forall clean_point (first :: others) ->
  LassoPath.has_char "Z" (LassoPath.points first others) = false.
Proof.
  revert first. induction others as [|next others IH]; intros first Hall;
    inversion Hall as [|p l [Hf Hs] Hrest]; subst;
    apply coordinate_clean in Hf; apply coordinate_clean in Hs;
    cbn [LassoPath.points].
  - apply point_has_char; [discriminate|tauto|tauto].
  - rewrite has_char_app. cbn [LassoPath.has_char].
    rewrite (IH next Hrest), point_has_char; [reflexivity|discriminate| |];
      tauto.
Qed.

Lemma split_points (first : string * string) (others : list (string * string)) :
  Forall clean_point (first :: others) ->
  JsString.split "L" (LassoPath.points first others) =
  map LassoPath.point (first :: others).
Proof.
  revert first. induction others as [|next others IH]; intros first Hall;
    inversion Hall as [|p l [Hf Hs] Hrest]; subst;
    apply coordinate_clean in Hf; apply coordinate_clean in Hs;
    cbn [LassoPath.points map].
  - unfold JsString.split. rewrite split_pieces_clean; [reflexivity|].
    apply point_has_char; [discriminate|tauto|tauto].
  - unfold JsString.split at 1. rewrite split_pieces_app.
    + now rewrite (IH next Hrest).
    + apply point_has_char; [discriminate|tauto|tauto].
Qed.

Lemma split_point (p : string * string) :
  clean_point p ->
  JsString.split_pieces "," (LassoPath.point p) = (fst p, [snd p]).
Proof.
  intros [Hf Hs]. apply coordinate_clean in Hf. apply coordinate_clean in Hs.
  unfold LassoPath.point. rewrite split_pieces_app by tauto.
  unfold JsString.split. rewrite split_pieces_clean by tauto. reflexivity.
Qed.

Lemma append_empty (s : string) : s ++ "" = s.
Proof. induction s as [|a s IH]; cbn; [reflexivity|now rewrite IH]. Qed.

(** X15. Reading back a path. For a path written as the doc comment of
    [parseLassoPath] describes (M, then the points as [x,y] with L between
    them, then Z or nothing) from at least one point whose coordinates hold
    none of the characters M, Z, L and comma, [parseLassoPath] returns the
    coordinates of the points in order, each through [Number], and no [y] is
    [undefined]. *)
Theorem parseLassoPath_reads_path :
  forall (num : Type) (Number : string -> num) (first : string * string)
         (others : list (string * string)) (closed : bool),
    Forall (fun p => LassoPath.coordinate (fst p) = true /\
                     LassoPath.coordinate (snd p) = true)
           (first :: others) ->
    PlotlyChart.parseLassoPath Number (LassoPath.path first others closed) =
    PlotlyChart.mkSelectionRange
      (map (fun p => Number (fst p)) (first :: others))
      (map (fun p => Some (Number (snd p))) (first :: others)).
Proof.
  intros num Number first others closed Hall.
  unfold PlotlyChart.parseLassoPath, LassoPath.path.
  cbn [String.eqb JsString.replace_first]. rewrite Ascii.eqb_refl.
  assert (Hstrip :
    JsString.replace_first
      "Z" (LassoPath.points first others ++ (if closed then "Z" else "")) =
    LassoPath.points first others).
  { destruct closed.
    - apply replace_first_end. now apply points_no_Z.
    - rewrite append_empty. apply replace_first_clean. now apply points_no_Z. }
  rewrite Hstrip, (split_points first others Hall), fold_pushPoint.
  cbn [PlotlyChart.x PlotlyChart.y app]. rewrite !map_map.
  f_equal; apply map_ext_in; intros p Hin;
    rewrite (split_point p (proj1 (Forall_forall _ _) Hall p Hin));
    reflexivity.
Qed.

Lemma parseLassoPath_reads_path_witness :
  PlotlyChart.parseLassoPath
    String.length
    "M4.016412414518674,8.071685352641575L4.020620725933719,7.8197516509841165Z" =
  PlotlyChart.mkSelectionRange [17; 17] [Some 17; Some 18].
Proof.
  apply (parseLassoPath_reads_path
           nat String.length
           ("4.016412414518674", "8.071685352641575")
           [("4.020620725933719", "7.8197516509841165")] true).
  repeat constructor.
Defined.

(** ** [handleSelection] *)

Section SelectionProperties.
Context {host : PlotlyChart.Host}.



Lemma collectPoints_run (pts : list PlotlyChart.Point) :
  forall acc,
    (Forall (fun p => PlotlyChart.data p <> None) pts ->
     PlotlyChart.collectPoints acc pts =
     Returned ((fst acc ++ map selectedPointOf pts)%list,
               fold_left PlotlyChart.setAdd (flat_map indicesOf pts)
                         (snd acc))) /\
    (Exists (fun p => PlotlyChart.data p = None) pts ->
     PlotlyChart.collectPoints acc pts = Thrown TypeError).
Proof.
  induction pts as [|p pts IH]; intros [selected indices];
    cbn [PlotlyChart.collectPoints map flat_map fold_left fst snd].
  - split.
    + intros _. now rewrite app_nil_r.
    + intros H. inversion H.
  - unfold PlotlyChart.collectPoint. split.
    + intros Hall. inversion Hall as [|p' l' Hp Hl]; subst.
      destruct (PlotlyChart.data p) as [pointData|] eqn:Ed;
        [|now contradiction Hp].
      rewrite (proj1 (IH _) Hl). cbn [fst snd].
      unfold selectedPointOf at 2. rewrite Ed.
      rewrite <- app_assoc, fold_left_app. cbn [app]. do 3 f_equal.
      unfold indicesOf.
      destruct (PlotlyChart.pointIndex p) as [i|],
        (PlotlyChart.pointIndices p) as [[|item items]|]; reflexivity.
    + intros Hex. inversion Hex as [p' l' Hn|p' l' Hl]; subst.
      * now rewrite Hn.
      * destruct (PlotlyChart.data p); [|reflexivity].
        apply (proj2 (IH _) Hl).
Qed.

Lemma no_data_or_not (pts : list PlotlyChart.Point) :
  Forall (fun p => PlotlyChart.data p <> None) pts \/
  Exists (fun p => PlotlyChart.data p = None) pts.
Proof.
  induction pts as [|p pts [IH|IH]].
  - left. constructor.
  - destruct (PlotlyChart.data p) eqn:Ed.
    + left. constructor; [congruence|exact IH].
    + right. now constructor.
  - right. now constructor 2.
Qed.


Lemma setAdd_In (Heq : forall a b, PlotlyChart.sameValueZero a b = true <-> a = b)
      (set : list PlotlyChart.num) (v i : PlotlyChart.num) :
  In i (PlotlyChart.setAdd set v) <-> i = v \/ In i set.
Proof.
  unfold PlotlyChart.setAdd.
  destruct (existsb (PlotlyChart.sameValueZero v) set) eqn:E.
  - apply existsb_exists in E. destruct E as [u [Hin Hu]].
    apply Heq in Hu. subst u. split; [auto|]. intros [->|H]; auto.
  - rewrite in_app_iff. cbn. split; intros [H|H]; auto.
    + destruct H as [H|[]]. auto.
Qed.

Lemma setAdd_NoDup (Heq : forall a b, PlotlyChart.sameValueZero a b = true <-> a = b)
      (set : list PlotlyChart.num) (v : PlotlyChart.num) :
  NoDup set -> NoDup (PlotlyChart.setAdd set v).
Proof.
  intros Hnd. unfold PlotlyChart.setAdd.
  destruct (existsb (PlotlyChart.sameValueZero v) set) eqn:E; [exact Hnd|].
  apply NoDup_app; [exact Hnd|repeat constructor; intros []|].
  intros a Ha [Hv|[]]. subst a.
  assert (Ht : existsb (PlotlyChart.sameValueZero v) set = true).
  { apply existsb_exists. exists v. split; [exact Ha|]. now apply Heq. }
  congruence.
Qed.

Lemma fold_setAdd (Heq : forall a b, PlotlyChart.sameValueZero a b = true <-> a = b)
      (l : list PlotlyChart.num) :
  forall set : list PlotlyChart.num,
    NoDup set ->
    NoDup (fold_left PlotlyChart.setAdd l set) /\
    forall i, In i (fold_left PlotlyChart.setAdd l set) <-> In i l \/ In i set.
Proof.
  induction l as [|v l IH]; intros set Hnd; cbn [fold_left].
  - split; [exact Hnd|]. intros i. cbn. tauto.
  - destruct (IH _ (setAdd_NoDup Heq set v Hnd)) as [IHn IHi].
    split; [exact IHn|]. intros i. rewrite IHi, (setAdd_In Heq). cbn.
    split; intros H; intuition auto.
Qed.

(** X17. The points and point indices of the state [handleSelection] builds.
    [points] has one entry for each point of the event, in order. When the
    equality of [Set] is equality of numbers, [point_indices] holds no
    number twice, and holds exactly the [pointIndex] of every point that has
    one and every member of the [pointIndices] of every point. *)
Theorem selectionState_points :
  forall (event : PlotlyChart.PlotSelectionEvent)
         (state : PlotlyChart.PlotlyWidgetState
                    PlotlyChart.num PlotlyChart.value PlotlyChart.SnakePoint),
    PlotlyChart.selectionStateOf event = Returned state ->
    PlotlyChart.points (PlotlyChart.select state) =
      map snakePointOf (PlotlyChart.event_points event) /\
    ((forall a b, PlotlyChart.sameValueZero a b = true <-> a = b) ->
     NoDup (PlotlyChart.point_indices (PlotlyChart.select state)) /\
     forall i : PlotlyChart.num,
       In i (PlotlyChart.point_indices (PlotlyChart.select state)) <->
       exists p, In p (PlotlyChart.event_points event) /\
                 (PlotlyChart.pointIndex p = Some i \/
                  exists l, PlotlyChart.pointIndices p = Some l /\ In i l)).
Proof.
  intros event state. unfold PlotlyChart.selectionStateOf.
  destruct (no_data_or_not (PlotlyChart.event_points event)) as [Hpts|Hpts];
    [|rewrite (proj2 (collectPoints_run _ ([], [])) Hpts); discriminate].
  rewrite (proj1 (collectPoints_run _ ([], [])) Hpts). cbn [fst snd app].
  destruct (match PlotlyChart.selections event with
            | Some l => PlotlyChart.collectSelections ([], []) l
            | None => Returned ([], [])
            end) as [[boxes lassos]|e]; intros H; [|discriminate H].
  injection H as <-.
  cbn [PlotlyChart.points PlotlyChart.point_indices PlotlyChart.select].
  split; [now rewrite map_map|].
  intros Heq.
  destruct (fold_setAdd Heq (flat_map indicesOf (PlotlyChart.event_points event))
                        [] (NoDup_nil _)) as [Hnd Hin].
  split; [exact Hnd|]. intros i. rewrite Hin, in_flat_map. cbn [In].
  unfold indicesOf. split.
  - intros [[p [Hp Hi]]|[]]. exists p. split; [exact Hp|].
    apply in_app_iff in Hi. destruct Hi as [Hi|Hi].
    + left. destruct (PlotlyChart.pointIndex p) as [j|]; [|contradiction].
      destruct Hi as [->|[]]. reflexivity.
    + right. destruct (PlotlyChart.pointIndices p) as [l|]; [|contradiction].
      now exists l.
  - intros [p [Hp [Hi|[l [Hl Hi]]]]]; left; exists p; (split; [exact Hp|]);
      apply in_app_iff.
    + left. rewrite Hi. now left.
    + right. rewrite Hl. exact Hi.
Qed.

(** X18. [handleSelection] sets the widget value exactly when there is an event,
    its state can be built, the selection mode of the element includes both
    box and lasso, and the state as a string is not the current value; it
    then sets that string, marked as coming from the UI, for the given
    fragment. *)
Theorem handleSelection_sets_exactly_when :
  forall (event : option PlotlyChart.PlotSelectionEvent)
         (current : option string)
         (selectionMode : list PlotlyChart.SelectionMode)
         (fragment : option string) (set : PlotlyChart.SetStringValue),
    PlotlyChart.handleSelection event current selectionMode fragment =
      Returned (Some set) <->
    exists ev state,
      event = Some ev /\
      PlotlyChart.selectionStateOf ev = Returned state /\
      PlotlyChart.includes selectionMode PlotlyChart.BOX = true /\
      PlotlyChart.includes selectionMode PlotlyChart.LASSO = true /\
      current <> Some (PlotlyChart.stringify state) /\
      set = PlotlyChart.mkSetStringValue (PlotlyChart.stringify state)
                                         true fragment.
Proof.
  intros event current selectionMode fragment set.
  assert (Hne : forall s : string,
            negb (strict_eq current s) = true <-> current <> Some s).
  { intros s. unfold strict_eq. destruct current as [c|]; cbn.
    - rewrite negb_true_iff. destruct (String.eqb_spec c s); split;
        congruence.
    - split; [discriminate|reflexivity]. }
  unfold PlotlyChart.handleSelection, PlotlyChart.setIfChanged. split.
  - destruct event as [ev|]; [|discriminate].
    destruct (PlotlyChart.selectionStateOf ev) as [state|e] eqn:Hs;
      [|discriminate].
    destruct (PlotlyChart.includes selectionMode PlotlyChart.BOX) eqn:Hb;
      [|discriminate].
    destruct (PlotlyChart.includes selectionMode PlotlyChart.LASSO) eqn:Hl;
      [|discriminate].
    cbn [andb negb].
    destruct (negb (strict_eq current (PlotlyChart.stringify state))) eqn:E;
      [|discriminate].
    intros H. injection H as <-. exists ev, state.
    split; [reflexivity|]. split; [exact Hs|]. split; [reflexivity|].
    split; [reflexivity|]. split; [now apply Hne|reflexivity].
  - intros [ev [state [-> [Hs [Hb [Hl [Hc ->]]]]]]].
    rewrite Hs, Hb, Hl. cbn [andb negb].
    now rewrite (proj2 (Hne _) Hc).
Qed.

(** X19. When the selection mode of the element lacks box or lacks lasso (a
    chart with point selection only, say), [handleSelection] never sets the
    widget value, whatever the event holds and whatever the current value
    is: each of its two tests reads an array, which is always truthy, so the
    test is decided by the selection mode alone. *)
Theorem handleSelection_needs_box_and_lasso :
  forall (event : option PlotlyChart.PlotSelectionEvent)
         (current : option string)
         (selectionMode : list PlotlyChart.SelectionMode)
         (fragment : option string),
    PlotlyChart.includes selectionMode PlotlyChart.BOX = false \/
    PlotlyChart.includes selectionMode PlotlyChart.LASSO = false ->
    PlotlyChart.handleSelection event current selectionMode fragment =
      Returned None \/
    PlotlyChart.handleSelection event current selectionMode fragment =
      Thrown TypeError.
Proof.
  intros event current selectionMode fragment Hmode.
  unfold PlotlyChart.handleSelection.
  destruct event as [ev|]; [|now left].
  destruct (PlotlyChart.selectionStateOf ev) as [state|[]]; [|now right].
  left. destruct Hmode as [H|H]; rewrite H; cbn [andb negb]; [reflexivity|].
  now destruct (PlotlyChart.includes selectionMode PlotlyChart.BOX).
Qed.

(** X20. [sendEmptySelection] is not held back by the selection mode: it sets the
    widget value unless the current value already is the empty state as a
    string. An event without points and without selections, on an element
    whose selection mode includes box and lasso, makes [handleSelection] do
    just what [sendEmptySelection] does. *)
Theorem sendEmptySelection_and_empty_event :
  forall (current : option string) (fragment : option string),
    (PlotlyChart.sendEmptySelection current fragment = None <->
     current = Some (PlotlyChart.stringify PlotlyChart.emptySelectionState)) /\
    (forall set,
       PlotlyChart.sendEmptySelection current fragment = Some set ->
       set = PlotlyChart.mkSetStringValue
               (PlotlyChart.stringify PlotlyChart.emptySelectionState)
               true fragment) /\
    forall (selectionMode : list PlotlyChart.SelectionMode)
           (selections : option (list (PlotlyChart.Selection PlotlyChart.value))),
      PlotlyChart.includes selectionMode PlotlyChart.BOX = true ->
      PlotlyChart.includes selectionMode PlotlyChart.LASSO = true ->
      selections = None \/ selections = Some [] ->
      PlotlyChart.handleSelection
        (Some (PlotlyChart.mkPlotSelectionEvent selections []))
        current selectionMode fragment =
      Returned (PlotlyChart.sendEmptySelection current fragment).
Proof.
  intros current fragment.
  unfold PlotlyChart.sendEmptySelection, PlotlyChart.setIfChanged.
  split; [|split].
  - unfold strict_eq. destruct current as [c|]; cbn.
    + destruct (String.eqb_spec
                  c (PlotlyChart.stringify PlotlyChart.emptySelectionState));
        cbn; split; congruence.
    + split; discriminate.
  - intros set.
    destruct (negb (strict_eq current
                      (PlotlyChart.stringify PlotlyChart.emptySelectionState)));
      intros H; [now injection H as <-|discriminate H].
  - intros selectionMode selections Hb Hl Hs.
    unfold PlotlyChart.handleSelection. rewrite Hb, Hl.
    destruct Hs as [-> | ->]; reflexivity.
Qed.

End SelectionProperties.


Lemma selectionState_points_witness :
  NoDup (PlotlyChart.point_indices (PlotlyChart.select SampleHost.state)).
Proof.
  apply (proj2 (@selectionState_points SampleHost.host SampleHost.event
                  SampleHost.state eq_refl)).
  exact Nat.eqb_eq.
Defined.

Lemma handleSelection_sets_exactly_when_witness :
  @PlotlyChart.handleSelection
    SampleHost.host (Some SampleHost.event) (Some "empty")
    [PlotlyChart.LASSO; PlotlyChart.BOX] (Some "fragment") =
  Returned (Some (PlotlyChart.mkSetStringValue "selection" true
                                               (Some "fragment"))).
Proof.
  apply (proj2 (@handleSelection_sets_exactly_when
                  SampleHost.host (Some SampleHost.event) (Some "empty")
                  [PlotlyChart.LASSO; PlotlyChart.BOX] (Some "fragment") _)).
  exists SampleHost.event, SampleHost.state.
  repeat split; discriminate.
Defined.

Lemma handleSelection_needs_box_and_lasso_witness :
  @PlotlyChart.handleSelection
    SampleHost.host (Some SampleHost.event) None
    [PlotlyChart.POINTS; PlotlyChart.BOX] None = Returned None \/
  @PlotlyChart.handleSelection
    SampleHost.host (Some SampleHost.event) None
    [PlotlyChart.POINTS; PlotlyChart.BOX] None = Thrown TypeError.
Proof.
  apply (@handleSelection_needs_box_and_lasso SampleHost.host).
  right. reflexivity.
Defined.

Lemma sendEmptySelection_and_empty_event_witness :
  @PlotlyChart.handleSelection
    SampleHost.host (Some SampleHost.emptyEvent) (Some "selection")
    [PlotlyChart.BOX; PlotlyChart.LASSO] None =
  Returned (@PlotlyChart.sendEmptySelection SampleHost.host
              (Some "selection") None).
Proof.
  apply (proj2 (proj2 (@sendEmptySelection_and_empty_event
                         SampleHost.host (Some "selection") None))).
  - reflexivity.
  - reflexivity.
  - left. reflexivity.
Defined.

(** * Properties of the interaction modes, the mode bar and the width *)

Lemma activated_includes (selectionMode : list PlotlyChart.SelectionMode)
      (disabled : bool) :
  PlotlyFigure.isSelectionActivated selectionMode disabled = true ->
  disabled = false /\
  (PlotlyChart.includes selectionMode PlotlyChart.POINTS = true \/
   PlotlyChart.includes selectionMode PlotlyChart.BOX = true \/
   PlotlyChart.includes selectionMode PlotlyChart.LASSO = true).
Proof.
  unfold PlotlyFigure.isSelectionActivated. intros H.
  apply andb_true_iff in H. destruct H as [Hlen Hd].
  apply negb_true_iff in Hd. split; [exact Hd|].
  destruct selectionMode as [|[] rest]; [discriminate Hlen| | |]; cbn; auto.
Qed.

(** X21. The drag mode after the selection mode of an activated chart is applied:
    a drag mode the user set in the figure leaves the drag mode of the state
    as it is; otherwise it is pan when points can be selected, select when
    boxes can but points cannot, and lasso in the one remaining case, that
    only lassos can. The last resort of the code, pan again, is never
    reached. *)
Theorem applySelectionMode_dragmode :
  forall (selectionMode : list PlotlyChart.SelectionMode) (disabled : bool)
         (initial prevState : PlotlyFigure.Layout),
    PlotlyFigure.isSelectionActivated selectionMode disabled = true ->
    (PlotlyFigure.isSet (PlotlyFigure.dragmode initial) = true ->
     PlotlyFigure.dragmode
       (PlotlyFigure.applySelectionMode selectionMode disabled initial
                                        prevState) =
     PlotlyFigure.dragmode prevState) /\
    (PlotlyFigure.isSet (PlotlyFigure.dragmode initial) = false ->
     PlotlyFigure.dragmode
       (PlotlyFigure.applySelectionMode selectionMode disabled initial
                                        prevState) =
     PlotlyFigure.named
       (if PlotlyChart.includes selectionMode PlotlyChart.POINTS then "pan"
        else if PlotlyChart.includes selectionMode PlotlyChart.BOX
             then "select"
             else "lasso") /\
     (PlotlyChart.includes selectionMode PlotlyChart.POINTS = false ->
      PlotlyChart.includes selectionMode PlotlyChart.BOX = false ->
      PlotlyChart.includes selectionMode PlotlyChart.LASSO = true)).
Proof.
  intros selectionMode disabled initial prevState Hact.
  destruct (activated_includes _ _ Hact) as [_ Hsome].
  unfold PlotlyFigure.applySelectionMode. rewrite Hact.
  unfold PlotlyFigure.isPointsSelectionActivated,
    PlotlyFigure.isBoxSelectionActivated,
    PlotlyFigure.isLassoSelectionActivated.
  split; intros Hd; rewrite Hd; cbn [negb].
  - destruct (PlotlyFigure.isSet (PlotlyFigure.hovermode initial)),
      (PlotlyChart.includes selectionMode PlotlyChart.POINTS); reflexivity.
  - split.
    + destruct (PlotlyFigure.isSet (PlotlyFigure.hovermode initial)),
        (PlotlyChart.includes selectionMode PlotlyChart.POINTS),
        (PlotlyChart.includes selectionMode PlotlyChart.BOX),
        (PlotlyChart.includes selectionMode PlotlyChart.LASSO);
        try reflexivity;
        destruct Hsome as [H|[H|H]]; discriminate H.
    + intros Hp Hb. destruct Hsome as [H|[H|H]]; congruence.
Qed.

Lemma applySelectionMode_dragmode_witness :
  PlotlyFigure.dragmode
    (PlotlyFigure.applySelectionMode
       [PlotlyChart.LASSO; PlotlyChart.BOX] false
       (PlotlyFigure.mkLayout (PlotlyFigure.named "none")
                              PlotlyFigure.notSet PlotlyFigure.isFalse)
       (PlotlyFigure.mkLayout PlotlyFigure.notSet PlotlyFigure.notSet
                              (PlotlyFigure.named "zoom"))) =
  PlotlyFigure.named "select".
Proof.
  apply (proj1 (proj2 (applySelectionMode_dragmode
                         [PlotlyChart.LASSO; PlotlyChart.BOX] false
                         (PlotlyFigure.mkLayout (PlotlyFigure.named "none")
                                                PlotlyFigure.notSet
                                                PlotlyFigure.isFalse)
                         (PlotlyFigure.mkLayout PlotlyFigure.notSet
                                                PlotlyFigure.notSet
                                                (PlotlyFigure.named "zoom"))
                         eq_refl) eq_refl)).
Defined.

(** X22. The click mode and the hover mode after the selection mode of an
    activated chart is applied. Both follow the hover mode of the figure as
    the user gave it: when that is not set, the click mode becomes
    [event+select] if points can be selected and [event] if not, and the
    hover mode becomes [closest], whatever click mode the user gave; when
    the user set a hover mode, the click mode and the hover mode of the
    state are left as they are. *)
Theorem applySelectionMode_clickmode :
  forall (selectionMode : list PlotlyChart.SelectionMode) (disabled : bool)
         (initial prevState : PlotlyFigure.Layout),
    PlotlyFigure.isSelectionActivated selectionMode disabled = true ->
    (PlotlyFigure.isSet (PlotlyFigure.hovermode initial) = false ->
     PlotlyFigure.clickmode
       (PlotlyFigure.applySelectionMode selectionMode disabled initial
                                        prevState) =
     PlotlyFigure.named
       (if PlotlyChart.includes selectionMode PlotlyChart.POINTS
        then "event+select" else "event") /\
     PlotlyFigure.hovermode
       (PlotlyFigure.applySelectionMode selectionMode disabled initial
                                        prevState) =
     PlotlyFigure.named "closest") /\
    (PlotlyFigure.isSet (PlotlyFigure.hovermode initial) = true ->
     PlotlyFigure.clickmode
       (PlotlyFigure.applySelectionMode selectionMode disabled initial
                                        prevState) =
     PlotlyFigure.clickmode prevState /\
     PlotlyFigure.hovermode
       (PlotlyFigure.applySelectionMode selectionMode disabled initial
                                        prevState) =
     PlotlyFigure.hovermode prevState).
Proof.
  intros selectionMode disabled initial prevState Hact.
  unfold PlotlyFigure.applySelectionMode. rewrite Hact.
  unfold PlotlyFigure.isPointsSelectionActivated,
    PlotlyFigure.isBoxSelectionActivated,
    PlotlyFigure.isLassoSelectionActivated.
  split; intros Hh; rewrite Hh; cbn [negb];
    destruct (PlotlyFigure.isSet (PlotlyFigure.dragmode initial)),
      (PlotlyChart.includes selectionMode PlotlyChart.POINTS),
      (PlotlyChart.includes selectionMode PlotlyChart.BOX),
      (PlotlyChart.includes selectionMode PlotlyChart.LASSO);
    split; reflexivity.
Qed.

Lemma applySelectionMode_clickmode_witness :
  PlotlyFigure.clickmode
    (PlotlyFigure.applySelectionMode
       [PlotlyChart.BOX] false
       (PlotlyFigure.mkLayout (PlotlyFigure.named "none")
                              PlotlyFigure.isFalse PlotlyFigure.notSet)
       (PlotlyFigure.mkLayout (PlotlyFigure.named "none")
                              PlotlyFigure.isFalse PlotlyFigure.notSet)) =
  PlotlyFigure.named "event" /\
  PlotlyFigure.hovermode
    (PlotlyFigure.applySelectionMode
       [PlotlyChart.BOX] false
       (PlotlyFigure.mkLayout (PlotlyFigure.named "none")
                              PlotlyFigure.isFalse PlotlyFigure.notSet)
       (PlotlyFigure.mkLayout (PlotlyFigure.named "none")
                              PlotlyFigure.isFalse PlotlyFigure.notSet)) =
  PlotlyFigure.named "closest".
Proof.
  apply (proj1 (applySelectionMode_clickmode
                  [PlotlyChart.BOX] false
                  (PlotlyFigure.mkLayout (PlotlyFigure.named "none")
                                         PlotlyFigure.isFalse
                                         PlotlyFigure.notSet)
                  (PlotlyFigure.mkLayout (PlotlyFigure.named "none")
                                         PlotlyFigure.isFalse
                                         PlotlyFigure.notSet)
                  eq_refl) eq_refl).
Defined.

(** X23. Applying the selection mode twice is the same as applying it once; and
    for a chart that is disabled or has no selection mode it puts the three
    modes back to those of the figure as the user gave it. *)
Theorem applySelectionMode_idempotent :
  forall (selectionMode : list PlotlyChart.SelectionMode) (disabled : bool)
         (initial prevState : PlotlyFigure.Layout),
    PlotlyFigure.applySelectionMode
      selectionMode disabled initial
      (PlotlyFigure.applySelectionMode selectionMode disabled initial
                                       prevState) =
    PlotlyFigure.applySelectionMode selectionMode disabled initial prevState /\
    (disabled = true \/ selectionMode = [] ->
     PlotlyFigure.applySelectionMode selectionMode disabled initial prevState =
     initial).
Proof.
  intros selectionMode disabled initial prevState. split.
  - unfold PlotlyFigure.applySelectionMode.
    destruct (PlotlyFigure.isSelectionActivated selectionMode disabled),
      (PlotlyFigure.isSet (PlotlyFigure.hovermode initial)),
      (PlotlyFigure.isSet (PlotlyFigure.dragmode initial)),
      (PlotlyFigure.isPointsSelectionActivated selectionMode),
      (PlotlyFigure.isBoxSelectionActivated selectionMode),
      (PlotlyFigure.isLassoSelectionActivated selectionMode);
      reflexivity.
  - intros H. unfold PlotlyFigure.applySelectionMode.
    assert (Hoff : PlotlyFigure.isSelectionActivated selectionMode disabled =
                   false).
    { unfold PlotlyFigure.isSelectionActivated.
      destruct H as [-> | ->]; [apply andb_false_r|reflexivity]. }
    rewrite Hoff. now destruct initial.
Qed.

Lemma applySelectionMode_idempotent_witness :
  PlotlyFigure.applySelectionMode
    [PlotlyChart.POINTS] true
    (PlotlyFigure.mkLayout PlotlyFigure.notSet PlotlyFigure.isFalse
                           (PlotlyFigure.named "zoom"))
    (PlotlyFigure.mkLayout (PlotlyFigure.named "event+select")
                           (PlotlyFigure.named "closest")
                           (PlotlyFigure.named "pan")) =
  PlotlyFigure.mkLayout PlotlyFigure.notSet PlotlyFigure.isFalse
                        (PlotlyFigure.named "zoom").
Proof.
  apply (proj2 (applySelectionMode_idempotent
                  [PlotlyChart.POINTS] true
                  (PlotlyFigure.mkLayout PlotlyFigure.notSet
                                         PlotlyFigure.isFalse
                                         (PlotlyFigure.named "zoom"))
                  (PlotlyFigure.mkLayout (PlotlyFigure.named "event+select")
                                         (PlotlyFigure.named "closest")
                                         (PlotlyFigure.named "pan")))).
  left. reflexivity.
Defined.

(** X24. The buttons taken off the mode bar. When the element has a
    configuration in which the user did not set [modeBarButtonsToRemove],
    the component sets it and hides the logo: the button that sends data to
    the cloud always goes; the lasso button goes exactly when the chart is
    disabled or its selection mode lacks lasso; the box select button goes
    exactly when the chart is disabled or its selection mode lacks box;
    nothing else goes and no button is listed twice. A list set by the user
    is kept as it is, and so is the user's choice about the logo. Without a
    configuration the result is empty: nothing is removed and nothing
    added. *)
Theorem plotlyConfig_buttons_removed :
  forall (J : Type) (config : option (PlotlyFigure.Config J))
         (isFullScreen disableFullscreenMode hasCollapse hasExpand : bool)
         (selectionMode : list PlotlyChart.SelectionMode) (disabled : bool),
    (forall c,
       config = Some c ->
       PlotlyFigure.modeBarButtonsToRemove c = None ->
       exists removed,
         PlotlyFigure.modeBarButtonsToRemove
           (PlotlyFigure.plotlyConfig config isFullScreen
              disableFullscreenMode hasCollapse hasExpand selectionMode
              disabled) = Some removed /\
         PlotlyFigure.displaylogo
           (PlotlyFigure.plotlyConfig config isFullScreen
              disableFullscreenMode hasCollapse hasExpand selectionMode
              disabled) = Some false /\
         NoDup removed /\
         (forall b,
            In b removed ->
            b = "sendDataToCloud" \/ b = "lasso2d" \/ b = "select2d") /\
         In "sendDataToCloud" removed /\
         (In "lasso2d" removed <->
          disabled = true \/
          PlotlyChart.includes selectionMode PlotlyChart.LASSO = false) /\
         (In "select2d" removed <->
          disabled = true \/
          PlotlyChart.includes selectionMode PlotlyChart.BOX = false)) /\
    (forall c removed,
       config = Some c ->
       PlotlyFigure.modeBarButtonsToRemove c = Some removed ->
       PlotlyFigure.modeBarButtonsToRemove
         (PlotlyFigure.plotlyConfig config isFullScreen
            disableFullscreenMode hasCollapse hasExpand selectionMode
            disabled) = Some removed /\
       PlotlyFigure.displaylogo
         (PlotlyFigure.plotlyConfig config isFullScreen
            disableFullscreenMode hasCollapse hasExpand selectionMode
            disabled) = PlotlyFigure.displaylogo c) /\
    (config = None ->
     PlotlyFigure.plotlyConfig config isFullScreen disableFullscreenMode
       hasCollapse hasExpand selectionMode disabled =
     PlotlyFigure.mkConfig None None None).
Proof.
  intros J config isFullScreen disableFullscreenMode hasCollapse hasExpand
    selectionMode disabled.
  split; [|split].
  - intros c -> Hnone.
    assert (Hlen : forall m, PlotlyChart.includes selectionMode m = true ->
                             Nat.ltb 0 (length selectionMode) = true).
    { intros m Hm. destruct selectionMode; [discriminate Hm|reflexivity]. }
    unfold PlotlyFigure.plotlyConfig,
      PlotlyFigure.isSelectionActivated,
      PlotlyFigure.isLassoSelectionActivated,
      PlotlyFigure.isBoxSelectionActivated.
    destruct disableFullscreenMode; cbn [negb PlotlyFigure.modeBarButtonsToRemove];
      rewrite Hnone;
      cbn [PlotlyFigure.modeBarButtonsToRemove PlotlyFigure.displaylogo];
      (eexists; split; [reflexivity|]; split; [reflexivity|]);
      destruct (PlotlyChart.includes selectionMode PlotlyChart.LASSO) eqn:Hl,
        (PlotlyChart.includes selectionMode PlotlyChart.BOX) eqn:Hb,
        disabled;
      rewrite ?(Hlen _ Hl), ?(Hlen _ Hb);
      try (destruct (Nat.ltb 0 (length selectionMode)));
      cbn [andb negb app];
      (split; [repeat constructor; cbn; intuition discriminate|]);
      (split; [intros b; cbn; intuition auto|]);
      cbn; intuition (auto; discriminate).
  - intros c removed -> Hsome.
    unfold PlotlyFigure.plotlyConfig.
    destruct disableFullscreenMode; cbn [negb PlotlyFigure.modeBarButtonsToRemove];
      rewrite Hsome; cbn; auto.
  - intros ->. reflexivity.
Qed.

Lemma plotlyConfig_buttons_removed_witness :
  exists removed,
    PlotlyFigure.modeBarButtonsToRemove
      (PlotlyFigure.plotlyConfig
         (Some (@PlotlyFigure.mkConfig unit None None None))
         false false true true [PlotlyChart.BOX] false) = Some removed /\
    PlotlyFigure.displaylogo
      (PlotlyFigure.plotlyConfig
         (Some (@PlotlyFigure.mkConfig unit None None None))
         false false true true [PlotlyChart.BOX] false) = Some false /\
    NoDup removed /\
    (forall b,
       In b removed ->
       b = "sendDataToCloud" \/ b = "lasso2d" \/ b = "select2d") /\
    In "sendDataToCloud" removed /\
    (In "lasso2d" removed <->
     false = true \/
     PlotlyChart.includes [PlotlyChart.BOX] PlotlyChart.LASSO = false) /\
    (In "select2d" removed <->
     false = true \/
     PlotlyChart.includes [PlotlyChart.BOX] PlotlyChart.BOX = false).
Proof.
  apply (proj1 (plotlyConfig_buttons_removed
                  unit (Some (PlotlyFigure.mkConfig None None None))
                  false false true true [PlotlyChart.BOX] false)
               (PlotlyFigure.mkConfig None None None) eq_refl eq_refl).
Defined.

(** X25. The width given to the figure. In full screen it is the width of the
    container as it is, however small. Otherwise it is never below the
    minimum width of 150; it does not exceed the container unless the
    container is narrower than the minimum; with the container's width in
    use it is the container's width when that reaches the minimum; and
    without, a width of the figure between the minimum and the container's
    width is kept as it is, a larger one is cut down to the container's,
    and no width of the figure means the container's. *)
Theorem calculatedWidth_bounds :
  forall (useContainerWidth isFullScreen : bool) (width : Q)
         (layoutWidth : option Q),
    (isFullScreen = true ->
     PlotlyFigure.calculatedWidth useContainerWidth isFullScreen width
                                  layoutWidth = width) /\
    (isFullScreen = false ->
     (PlotlyFigure.MIN_WIDTH <=
      PlotlyFigure.calculatedWidth useContainerWidth isFullScreen width
                                   layoutWidth)%Q /\
     (PlotlyFigure.MIN_WIDTH <= width ->
      PlotlyFigure.calculatedWidth useContainerWidth isFullScreen width
                                   layoutWidth <= width)%Q /\
     (width <= PlotlyFigure.MIN_WIDTH ->
      PlotlyFigure.calculatedWidth useContainerWidth isFullScreen width
                                   layoutWidth == PlotlyFigure.MIN_WIDTH)%Q /\
     (PlotlyFigure.MIN_WIDTH <= width ->
      useContainerWidth = true \/ layoutWidth = None ->
      PlotlyFigure.calculatedWidth useContainerWidth isFullScreen width
                                   layoutWidth == width)%Q /\
     (forall lw : Q,
        useContainerWidth = false ->
        layoutWidth = Some lw ->
        (PlotlyFigure.MIN_WIDTH <= width ->
         (PlotlyFigure.MIN_WIDTH <= lw -> lw <= width ->
          PlotlyFigure.calculatedWidth useContainerWidth isFullScreen width
                                       layoutWidth == lw) /\
         (width <= lw ->
          PlotlyFigure.calculatedWidth useContainerWidth isFullScreen width
                                       layoutWidth == width) /\
         (lw <= PlotlyFigure.MIN_WIDTH ->
          PlotlyFigure.calculatedWidth useContainerWidth isFullScreen width
                                       layoutWidth ==
          PlotlyFigure.MIN_WIDTH))%Q)).
Proof.
  intros useContainerWidth isFullScreen width layoutWidth.
  unfold PlotlyFigure.calculatedWidth, PlotlyFigure.MIN_WIDTH.
  split; intros Hfs; rewrite Hfs; [reflexivity|].
  assert (Hcase : forall a : Q,
    (Qmax a 150 == 150 /\ a < 150)%Q \/ (Qmax a 150 == a /\ 150 <= a)%Q).
  { intros a. destruct (Q.max_spec a 150%Q) as [[H1 H2]|[H1 H2]]; auto. }
  assert (Hmin : forall a b : Q,
    (Qmin a b == a /\ a < b)%Q \/ (Qmin a b == b /\ b <= a)%Q).
  { intros a b. destruct (Q.min_spec a b) as [[H1 H2]|[H1 H2]]; auto. }
  destruct useContainerWidth, layoutWidth as [lw|]; cbn [nullish].
  - destruct (Hcase width) as [[E H]|[E H]];
      repeat split; intros;
      try match goal with
          | H : ?x = false, H' : ?y = Some _ |- _ => discriminate H
          end;
      lra.
  - destruct (Hcase width) as [[E H]|[E H]];
      repeat split; intros;
      try match goal with
          | H' : None = Some _ |- _ => discriminate H'
          end;
      lra.
  - destruct (Hmin lw width) as [[Em Hm]|[Em Hm]];
      destruct (Hcase (Qmin lw width)) as [[E H]|[E H]];
      repeat split; intros;
      repeat match goal with
          | H' : _ \/ _ |- _ => destruct H'
          | H' : false = true |- _ => discriminate H'
          | H' : Some _ = None |- _ => discriminate H'
          | H' : Some _ = Some _ |- _ => injection H' as H'; subst
          end;
      lra.
  - destruct (Hmin width width) as [[Em Hm]|[Em Hm]];
      destruct (Hcase (Qmin width width)) as [[E H]|[E H]];
      repeat split; intros;
      try match goal with
          | H' : None = Some _ |- _ => discriminate H'
          end;
      lra.
Qed.

Lemma calculatedWidth_bounds_witness :
  (PlotlyFigure.calculatedWidth false true 40 (Some 700%Q) = 40)%Q /\
  (PlotlyFigure.MIN_WIDTH <=
   PlotlyFigure.calculatedWidth false false 40 (Some 700%Q))%Q.
Proof.
  split.
  - apply (proj1 (calculatedWidth_bounds false true 40%Q (Some 700%Q))).
    reflexivity.
  - apply (proj2 (calculatedWidth_bounds false false 40%Q (Some 700%Q))).
    reflexivity.
Defined.
